(** * Travel assistant: a shallow embedding of the Python sources

    The development follows the modules of [travel/configuration]:
    [travel_prompts.py] (prompt assembly), [groq_client.py] (completion
    client), [auth.py] (session authentication), [database.py] (primary
    store) and [conversation_manager.py] (session-oriented store).

    Part I holds the definitions, translated function by function from the
    Python code; Part II holds the lemmas and theorems about them. *)

From Stdlib Require Import ZArith NArith QArith String Ascii List Lia Permutation Sorted.
From stdpp Require Import base option list gmap fin_maps sorting.
Import ListNotations.

#[local] Set Warnings "-register-all".
#[local] Open Scope Z_scope.

(* ===================================================================== *)
(** * Part I.  Definitions                                                *)
(* ===================================================================== *)

(** ** Python strings

    A Python [str] is a sequence of Unicode code points; [len], slicing,
    [split] and [strip] all count code points.  A code point is an [N]. *)

Module PyStr.

Definition pystr : Type := list N.

(** Literals are written as Rocq strings, which hold the UTF-8 bytes of
    the text; [utf8_decode] recovers the code points (1 to 4 byte forms). *)
Fixpoint utf8_decode (bs : list N) : pystr :=
  match bs with
  | [] => []
  | b0 :: r0 =>
    if (b0 <? 128)%N then b0 :: utf8_decode r0
    else match r0 with
    | [] => [b0]
    | b1 :: r1 =>
      if (b0 <? 224)%N then
        ((b0 mod 32) * 64 + b1 mod 64)%N :: utf8_decode r1
      else match r1 with
      | [] => [b0; b1]
      | b2 :: r2 =>
        if (b0 <? 240)%N then
          ((b0 mod 16) * 4096 + (b1 mod 64) * 64 + b2 mod 64)%N :: utf8_decode r2
        else match r2 with
        | [] => [b0; b1; b2]
        | b3 :: r3 =>
          ((b0 mod 8) * 262144 + (b1 mod 64) * 4096 + (b2 mod 64) * 64 + b3 mod 64)%N
            :: utf8_decode r3
        end
      end
    end
  end.

Definition str (s : string) : pystr :=
  utf8_decode (map N_of_ascii (list_ascii_of_string s)).
Arguments str s%_string.

(** [str.isspace] on one code point, as CPython's [_PyUnicode_IsWhitespace]. *)
Definition isspace (c : N) : bool :=
  ((9 <=? c) && (c <=? 13) || (28 <=? c) && (c <=? 32)
   || (c =? 133) || (c =? 160) || (c =? 5760)
   || (8192 <=? c) && (c <=? 8202)
   || (c =? 8232) || (c =? 8233) || (c =? 8239) || (c =? 8287)
   || (c =? 12288))%N.

(** [s.lstrip()], [s.rstrip()], [s.strip()] with no argument. *)
Fixpoint lstrip (s : pystr) : pystr :=
  match s with
  | [] => []
  | c :: r => if isspace c then lstrip r else s
  end.

Definition rstrip (s : pystr) : pystr := reverse (lstrip (reverse s)).

Definition strip (s : pystr) : pystr := rstrip (lstrip s).

(** Whitespace and the other code points, as propositions. *)
Definition blank (c : N) : Prop := isspace c = true.
Definition solid (c : N) : Prop := isspace c = false.

(** [s.split()] with no argument: the maximal runs of non-whitespace.
    [w] is the word being read. *)
Fixpoint split_acc (w : pystr) (s : pystr) : list pystr :=
  match s with
  | [] => match w with [] => [] | _ => [w] end
  | c :: r =>
    if isspace c
    then match w with [] => split_acc [] r | _ => w :: split_acc [] r end
    else split_acc (w ++ [c]) r
  end.

Definition split (s : pystr) : list pystr := split_acc [] s.

(** [sep.join(words)]. *)
Fixpoint join (sep : pystr) (ws : list pystr) : pystr :=
  match ws with
  | [] => []
  | [w] => w
  | w :: r => w ++ sep ++ join sep r
  end.

(** [needle in hay] for two strings: substring test. *)
Fixpoint is_prefix (p s : pystr) : bool :=
  match p, s with
  | [], _ => true
  | _ :: _, [] => false
  | a :: p', b :: s' => (a =? b)%N && is_prefix p' s'
  end.

Fixpoint contains (needle hay : pystr) : bool :=
  is_prefix needle hay ||
  match hay with
  | [] => false
  | _ :: r => contains needle r
  end.

(** [s.lower()] restricted to the ASCII letters; the other code points are
    kept (the guidance tables only lower-case user-chosen labels). *)
Definition lower_char (c : N) : N :=
  if ((65 <=? c) && (c <=? 90))%N then (c + 32)%N else c.

Definition lower (s : pystr) : pystr := map lower_char s.

(** Decimal digits, zero padded, as [%02d], [%04d] and [%06d] print them. *)
Definition digit (d : Z) : N := Z.to_N (48 + d mod 10).

Definition pad2 (n : Z) : pystr := [digit (n / 10); digit n].

Definition pad4 (n : Z) : pystr :=
  [digit (n / 1000); digit (n / 100); digit (n / 10); digit n].

Definition pad6 (n : Z) : pystr :=
  [digit (n / 100000); digit (n / 10000); digit (n / 1000);
   digit (n / 100); digit (n / 10); digit n].

(** Lower-case hexadecimal, [k] digits, as ['%0kx'] prints a number below
    [16^k]. *)
Definition hex_digit (d : N) : N :=
  (if d <? 10 then 48 + d else 87 + d)%N.

Fixpoint hex (k : nat) (x : N) : pystr :=
  match k with
  | O => []
  | S k' => hex k' (x / 16)%N ++ [hex_digit (x mod 16)%N]
  end.

End PyStr.
Export PyStr.

(** ** Python values, exceptions and results *)

Module Py.

(** The values that travel through dictionaries and JSON documents.
    A [float] is idealised as the rational it denotes. *)
Inductive pyval : Type :=
| VNone
| VBool (b : bool)
| VInt (z : Z)
| VFloat (q : Q)
| VStr (s : pystr)
| VList (l : list pyval)
| VDict (d : gmap pystr pyval).

Abbreviation pydict := (gmap pystr pyval).

(** Errors of the database driver ([psycopg2.Error] and its subclasses). *)
Inductive dberr : Type :=
| OperationalError
| IntegrityError
| DataError
| ProgrammingError
| InterfaceError
| InternalError.

(** The exceptions that the modelled code can meet. *)
Inductive exn : Type :=
| KeyError (key : pystr)
| IndexError
| TypeError
| AttributeError
| ValueError
| JSONDecodeError
| RequestException
| Psycopg2Error (e : dberr).

(** [except psycopg2.Error] *)
Definition is_psycopg2_Error (e : exn) : bool :=
  match e with Psycopg2Error _ => true | _ => false end.

(** [except psycopg2.OperationalError] *)
Definition is_OperationalError (e : exn) : bool :=
  match e with Psycopg2Error OperationalError => true | _ => false end.

(** [except requests.RequestException] *)
Definition is_RequestException (e : exn) : bool :=
  match e with RequestException => true | _ => false end.

(** [except json.JSONDecodeError] *)
Definition is_JSONDecodeError (e : exn) : bool :=
  match e with JSONDecodeError => true | _ => false end.

(** [except Exception] *)
Definition is_Exception (e : exn) : bool := true.

(** The outcome of evaluating an expression: a value or a raised exception. *)
Inductive pyres (A : Type) : Type :=
| Ok (a : A)
| Raise (e : exn).
Arguments Ok {A} a.
Arguments Raise {A} e.

Definition pbind {A B} (m : pyres A) (k : A -> pyres B) : pyres B :=
  match m with
  | Ok a => k a
  | Raise e => Raise e
  end.

Notation "'let?' x ':=' m 'in' k" := (pbind m (fun x => k))
  (at level 10, x name, m at level 99, k at level 200).

(** Truthiness, as [if v:] and [not v] see it. *)
Definition truthy (v : pyval) : bool :=
  match v with
  | VNone => false
  | VBool b => b
  | VInt z => negb (z =? 0)
  | VFloat q => negb (Qeq_bool q 0)
  | VStr s => match s with [] => false | _ => true end
  | VList l => match l with [] => false | _ => true end
  | VDict d => negb (bool_decide (d = ∅))
  end.

(** [d.get(k)] on a dictionary: [None] when the key is absent. *)
Definition dict_get (d : pydict) (k : pystr) : pyval :=
  match d !! k with
  | Some v => v
  | None => VNone
  end.

(** [d[k]] on a dictionary: [KeyError] when the key is absent. *)
Definition dict_item (d : pydict) (k : pystr) : pyres pyval :=
  match d !! k with
  | Some v => Ok v
  | None => Raise (KeyError k)
  end.

(** [k in v] for a string [k]. *)
Definition py_contains (k : pystr) (v : pyval) : pyres bool :=
  match v with
  | VDict d => Ok (bool_decide (is_Some (d !! k)))
  | VList l => Ok (existsb (fun x => match x with
                                     | VStr s => bool_decide (s = k)
                                     | _ => false
                                     end) l)
  | VStr s => Ok (contains k s)
  | _ => Raise TypeError
  end.

(** [v[k]] for a string [k]. *)
Definition py_item (v : pyval) (k : pystr) : pyres pyval :=
  match v with
  | VDict d => dict_item d k
  | _ => Raise TypeError
  end.

(** [v[0]]. *)
Definition py_first (v : pyval) : pyres pyval :=
  match v with
  | VList l => match l with x :: _ => Ok x | [] => Raise IndexError end
  | VStr s => match s with c :: _ => Ok (VStr [c]) | [] => Raise IndexError end
  | VDict _ => Raise (KeyError [])
  | _ => Raise TypeError
  end.

(** [len(v)]. *)
Definition py_len (v : pyval) : pyres Z :=
  match v with
  | VList l => Ok (Z.of_nat (length l))
  | VStr s => Ok (Z.of_nat (length s))
  | VDict d => Ok (Z.of_nat (size d))
  | _ => Raise TypeError
  end.

(** [v.strip()]. *)
Definition py_strip (v : pyval) : pyres pystr :=
  match v with
  | VStr s => Ok (strip s)
  | _ => Raise AttributeError
  end.

(** [datetime.datetime]: the fields that [strftime], [isoformat] and
    timestamp columns use. *)
Record datetime : Type := {
  year : Z; month : Z; day : Z;
  hour : Z; minute : Z; second : Z; microsecond : Z
}.

(** [d.strftime("%Y-%m-%d")]. *)
Definition strftime_Ymd (d : datetime) : pystr :=
  pad4 (year d) ++ str "-" ++ pad2 (month d) ++ str "-" ++ pad2 (day d).

(** [d.strftime('%m/%d')]. *)
Definition strftime_md (d : datetime) : pystr :=
  pad2 (month d) ++ str "/" ++ pad2 (day d).

(** [d.strftime('%m/%d %H:%M')]. *)
Definition strftime_mdHM (d : datetime) : pystr :=
  pad2 (month d) ++ str "/" ++ pad2 (day d) ++ str " "
  ++ pad2 (hour d) ++ str ":" ++ pad2 (minute d).

(** [d.isoformat()]: the fraction is printed only when it is not zero. *)
Definition isoformat (d : datetime) : pystr :=
  strftime_Ymd d ++ str "T" ++ pad2 (hour d) ++ str ":" ++ pad2 (minute d)
  ++ str ":" ++ pad2 (second d)
  ++ (if microsecond d =? 0 then [] else str "." ++ pad6 (microsecond d)).

(** Position of a datetime on the time line, for comparing timestamps
    (the fields of a valid datetime are within their calendar ranges). *)
Definition dt_key (d : datetime) : Z :=
  (((((year d * 13 + month d) * 32 + day d) * 24 + hour d) * 60
     + minute d) * 60 + second d) * 1000000 + microsecond d.

End Py.
Export Py.

(** ** travel_prompts.py: class TravelPrompts *)

Module TravelPrompts.

(** The preference dictionary, with the four keys that the application
    writes ([app.py]); a key that is absent reads as [None] through
    [.get]. *)
Record preferences : Type := {
  budget_range : option pystr;
  travel_style : option (list pystr);
  preferred_climate : option pystr;
  last_updated : option pystr
}.

(** [if user_preferences:] on the dictionary: it is not empty. *)
Definition prefs_nonempty (p : preferences) : bool :=
  bool_decide (is_Some (budget_range p)) || bool_decide (is_Some (travel_style p))
  || bool_decide (is_Some (preferred_climate p)) || bool_decide (is_Some (last_updated p)).

(** [if user_preferences.get(key):] for a string and for a list value. *)
Definition get_truthy {A} (o : option (list A)) : option (list A) :=
  match o with
  | Some (x :: l) => Some (x :: l)
  | _ => None
  end.

(** [_get_current_season]; [month] is [datetime.now().month]. *)
Definition _get_current_season (now : datetime) : pystr :=
  let month := month now in
  if bool_decide (month ∈ [12; 1; 2]) then str "winter"
  else if bool_decide (month ∈ [3; 4; 5]) then str "spring"
  else if bool_decide (month ∈ [6; 7; 8]) then str "summer"
  else str "autumn".

(** [table.get(key, default)] on a literal table. *)
Fixpoint table_get (table : list (pystr * pystr)) (key : pystr) (default : pystr) : pystr :=
  match table with
  | [] => default
  | (k, v) :: rest => if bool_decide (k = key) then v else table_get rest key default
  end.

(** [_get_budget_guidance] *)
Definition _get_budget_guidance (budget_range : pystr) : pystr :=
  let guidance := [
    (str "Budget", str "Focus on hostels, public transport, local eateries, and free attractions");
    (str "Mid-range", str "Balance of comfort and value with 3-star hotels, mix of dining options");
    (str "Luxury", str "Premium accommodations, fine dining, private transfers, and exclusive experiences");
    (str "No preference", str "I'll provide options across all budget ranges")
  ] in
  table_get guidance budget_range (str "I'll tailor suggestions to your needs").

(** [_get_style_guidance] *)
Definition _get_style_guidance (styles : list pystr) : pystr :=
  let style_tips := [
    (str "Adventure", str "outdoor activities, hiking, extreme sports, and off-the-beaten-path destinations");
    (str "Relaxation", str "spas, beaches, quiet retreats, and slow travel experiences");
    (str "Culture", str "museums, historical sites, local traditions, and cultural immersion");
    (str "Business", str "efficiency, connectivity, meeting facilities, and professional amenities");
    (str "Family", str "kid-friendly activities, safety, educational experiences, and convenience");
    (str "Solo", str "safety considerations, social opportunities, and personal growth experiences")
  ] in
  let relevant_tips := map (fun style => table_get style_tips style (lower style)) styles in
  str "prioritize " ++ join (str ", ") relevant_tips.

(** [_get_climate_suggestions] *)
Definition _get_climate_suggestions (climate : pystr) : pystr :=
  let suggestions := [
    (str "Tropical", str "warm beaches, rainforests, and consistent temperatures year-round");
    (str "Temperate", str "moderate seasons, comfortable walking weather, and varied landscapes");
    (str "Cold", str "winter sports, northern lights, cozy accommodations, and cold-weather activities");
    (str "Desert", str "dry climates, unique landscapes, and considerations for extreme temperatures")
  ] in
  str "seek destinations with " ++ table_get suggestions climate (lower climate)
  ++ str " characteristics".

(** The fixed text of the system prompt. *)
Definition prompt_intro : pystr := str "You are an expert Travel Assistant AI with comprehensive knowledge of global destinations, travel planning, and booking procedures. Today's date is ".

Definition prompt_expertise : pystr := str " season.

Your core expertise includes:
🌍 DESTINATIONS: Worldwide knowledge of cities, countries, attractions, and hidden gems
✈️ TRANSPORTATION: Flights, trains, buses, car rentals, and local transport options
🏨 ACCOMMODATION: Hotels, hostels, vacation rentals, and unique stays
🎯 PLANNING: Itineraries, budgeting, timing, and travel optimization
📋 LOGISTICS: Visas, documentation, insurance, health requirements, and safety
🍴 LOCAL INSIGHTS: Culture, cuisine, customs, language tips, and etiquette
💰 BUDGETING: Cost analysis, money-saving tips, and expense planning
🌦️ SEASONAL ADVICE: Weather patterns, best times to visit, and seasonal events

".

Definition prompt_guidelines : pystr := str "RESPONSE GUIDELINES:
• Provide specific, actionable advice with concrete next steps
• Include relevant costs, timeframes, and booking platforms when helpful
• Suggest 2-3 alternatives for major recommendations
• Consider seasonal factors, local events, and current travel conditions
• Always include safety considerations and practical tips
• Be enthusiastic but realistic about recommendations
• Ask clarifying questions when you need more information
• Format responses with clear sections and bullet points for readability
• Include relevant website links or booking platforms when applicable

CONVERSATION STYLE:
• Professional yet friendly and enthusiastic
• Use travel emojis appropriately (✈️🏨🌍🎒)
• Provide detailed explanations while staying concise
• Show cultural awareness and sensitivity
• Encourage exploration while prioritizing safety

Remember: You're not just providing information, you're helping create memorable travel experiences!".

(** [_get_system_prompt]; [now] is [datetime.now()]. *)
Definition _get_system_prompt (user_preferences : option preferences) (now : datetime) : pystr :=
  let current_date := strftime_Ymd now in
  let current_season := _get_current_season now in
  let system_prompt :=
    prompt_intro ++ current_date ++ str " and we're in " ++ current_season ++ prompt_expertise in
  let system_prompt :=
    match user_preferences with
    | Some prefs =>
      if prefs_nonempty prefs then
        let system_prompt := system_prompt ++ str "USER PREFERENCES:
" in
        let system_prompt :=
          match get_truthy (budget_range prefs) with
          | Some budget =>
            let budget_guidance := _get_budget_guidance budget in
            system_prompt ++ str "• Budget Level: " ++ budget ++ str " - "
              ++ budget_guidance ++ str "
"
          | None => system_prompt
          end in
        let system_prompt :=
          match get_truthy (travel_style prefs) with
          | Some styles =>
            let style_guidance := _get_style_guidance styles in
            system_prompt ++ str "• Travel Style: " ++ join (str ", ") styles
              ++ str " - " ++ style_guidance ++ str "
"
          | None => system_prompt
          end in
        let system_prompt :=
          match get_truthy (preferred_climate prefs) with
          | Some climate =>
            if bool_decide (climate ≠ str "No preference") then
              let climate_suggestions := _get_climate_suggestions climate in
              system_prompt ++ str "• Climate Preference: " ++ climate ++ str " - "
                ++ climate_suggestions ++ str "
"
            else system_prompt
          | None => system_prompt
          end in
        system_prompt ++ str "
"
      else system_prompt
    | None => system_prompt
    end in
  system_prompt ++ prompt_guidelines.

(** A chat message is a dictionary; [make_message] builds the literal
    [{"role": role, "content": content}]. *)
Definition make_message (role content : pyval) : pydict :=
  <[str "role" := role]> (<[str "content" := content]> ∅).

(** [msg.get('role') in ['user', 'assistant']] *)
Definition role_is_chat (msg : pydict) : bool :=
  match dict_get msg (str "role") with
  | VStr r => bool_decide (r = str "user") || bool_decide (r = str "assistant")
  | _ => false
  end.

(** [conversation_history[-4:] if len(conversation_history) > 4 else
    conversation_history] *)
Definition recent_history (conversation_history : list pydict) : list pydict :=
  if (4 <? length conversation_history)%nat
  then drop (length conversation_history - 4) conversation_history
  else conversation_history.

(** The loop of [build_context] over the recent history, appending to
    [messages]; indexing a message without the key raises [KeyError]. *)
Fixpoint append_history (messages : list pydict) (recent : list pydict)
  : pyres (list pydict) :=
  match recent with
  | [] => Ok messages
  | msg :: rest =>
    if role_is_chat msg then
      let? role := dict_item msg (str "role") in
      let? content := dict_item msg (str "content") in
      append_history (messages ++ [make_message role content]) rest
    else append_history messages rest
  end.

(** [build_context]; [now] is the clock read by [_get_system_prompt]. *)
Definition build_context (user_preferences : option preferences)
    (conversation_history : option (list pydict)) (user_query : pystr)
    (now : datetime) : pyres (list pydict) :=
  let system_prompt := _get_system_prompt user_preferences now in
  let messages := [make_message (VStr (str "system")) (VStr system_prompt)] in
  let? messages :=
    match conversation_history with
    | Some (m :: h) => append_history messages (recent_history (m :: h))
    | _ => Ok messages
    end in
  Ok (messages ++ [make_message (VStr (str "user")) (VStr user_query)]).

(** The vocabulary of the specification: the last four entries of the
    history, and what an entry contributes to the context (its role and
    its content, and no other key). *)
Definition window (conversation_history : option (list pydict)) : list pydict :=
  let h := default [] conversation_history in
  drop (length h - 4) h.

Definition as_message (msg : pydict) : pydict :=
  make_message (dict_get msg (str "role")) (dict_get msg (str "content")).

(** A kept entry can be copied: it has a content. *)
Definition has_content (msg : pydict) : Prop :=
  role_is_chat msg = true -> is_Some (msg !! str "content").

End TravelPrompts.

(** ** groq_client.py: class GroqClient *)

Module GroqClient.

(** The attributes set by [__init__]. *)
Record client : Type := {
  api_key : pystr;
  base_url : pystr;
  model : pystr;
  headers : list (pystr * pystr)
}.

(** [__init__]; [env_key] is [os.getenv("GROQ_API_KEY")]. *)
Definition init (env_key : option pystr) : pyres client :=
  match env_key with
  | Some (c :: k) =>
    Ok {| api_key := c :: k;
          base_url := str "https://api.groq.com/openai/v1/chat/completions";
          model := str "llama-3.1-8b-instant";
          headers := [(str "Authorization", str "Bearer " ++ (c :: k));
                      (str "Content-Type", str "application/json")] |}
  | _ => Raise ValueError
  end.

(** The JSON payload of the request. *)
Record payload : Type := {
  p_model : pystr;
  p_messages : list pydict;
  p_temperature : Q;
  p_max_tokens : Z;
  p_top_p : Z;
  p_stream : bool
}.

(** What [requests.post] hands back: the status code, the body text, and
    what [response.json()] evaluates to (a value, or the exception raised
    on a body that is not JSON). *)
Record response : Type := {
  status_code : Z;
  text : pystr;
  json : pyres pyval
}.

(** The network: [requests.post(url, headers=..., json=..., timeout=30)]
    returns a response or raises. *)
Definition endpoint : Type :=
  pystr -> list (pystr * pystr) -> payload -> Z -> pyres response.

(** The request that [get_response] sends, and what comes back. *)
Definition send (self : client) (post : endpoint)
    (messages : list pydict) (temperature : Q) (max_tokens : Z)
  : pyres response :=
  let payload := {| p_model := model self; p_messages := messages;
                    p_temperature := temperature; p_max_tokens := max_tokens;
                    p_top_p := 1; p_stream := false |} in
  post (base_url self) (headers self) payload 30.

(** The body of the [try] block of [get_response]. *)
Definition get_response_body (self : client) (post : endpoint)
    (messages : list pydict) (temperature : Q) (max_tokens : Z)
  : pyres (option pystr) :=
  let? response := send self post messages temperature max_tokens in
  if status_code response =? 200 then
    let? result := json response in
    let? has_choices := py_contains (str "choices") result in
    let? nonempty :=
      (if has_choices
       then let? choices := py_item result (str "choices") in
            let? n := py_len choices in
            Ok (0 <? n)
       else Ok false) in
    if nonempty then
      let? choices := py_item result (str "choices") in
      let? choice := py_first choices in
      let? message := py_item choice (str "message") in
      let? content := py_item message (str "content") in
      let? stripped := py_strip content in
      Ok (Some stripped)
    else Ok None
  else Ok None.

(** [get_response]: the three [except] clauses all log and return [None];
    the last one is [except Exception]. *)
Definition get_response (self : client) (post : endpoint)
    (messages : list pydict) (temperature : Q) (max_tokens : Z)
  : pyres (option pystr) :=
  match get_response_body self post messages temperature max_tokens with
  | Ok r => Ok r
  | Raise e =>
    if is_RequestException e then Ok None
    else if is_JSONDecodeError e then Ok None
    else if is_Exception e then Ok None
    else Raise e
  end.

End GroqClient.

(** ** auth.py: class AuthManager *)

Module AuthManager.

(** The attributes set by [__init__]. *)
Record manager : Type := {
  app_password : pystr;
  session_timeout : Q
}.

(** [__init__]; [env_password] is [os.getenv("APP_PASSWORD")], which
    defaults to the demonstration password. *)
Definition init (env_password : option pystr) : manager :=
  {| app_password := default (str "travel2024!") env_password;
     session_timeout := 3600 |}.

(** [st.session_state]: the per-session dictionary of the web framework.
    The keys used here are ["authenticated"] and ["auth_time"]. *)
Abbreviation session_state := (gmap pystr pyval).

Definition k_authenticated : pystr := str "authenticated".
Definition k_auth_time : pystr := str "auth_time".

(** [verify_password] *)
Definition verify_password (self : manager) (password : pystr) : bool :=
  bool_decide (password = app_password self).

(** [logout] *)
Definition logout (st : session_state) : session_state :=
  let st := <[k_authenticated := VBool false]> st in
  if bool_decide (is_Some (st !! k_auth_time)) then delete k_auth_time st else st.

(** [current_time - auth_time > timeout] on numbers. *)
Definition elapsed_exceeds (current_time : Q) (auth_time : pyval) (timeout : Q)
  : pyres bool :=
  match auth_time with
  | VFloat t => Ok (negb (Qle_bool (current_time - t) timeout))
  | VInt z => Ok (negb (Qle_bool (current_time - inject_Z z) timeout))
  | VBool b => Ok (negb (Qle_bool (current_time - inject_Z (Z.b2z b)) timeout))
  | _ => Raise TypeError
  end.

(** [is_authenticated]; [now] is [datetime.now().timestamp()].  The
    result is the returned value and the session state left behind. *)
Definition is_authenticated (self : manager) (st : session_state) (now : Q)
  : pyres (pyval * session_state) :=
  match st !! k_authenticated with
  | None => Ok (VBool false, st)
  | Some authenticated =>
    match st !! k_auth_time with
    | None => Ok (VBool false, st)
    | Some auth_time =>
      let current_time := now in
      let? expired := elapsed_exceeds current_time auth_time (session_timeout self) in
      if expired then Ok (VBool false, logout st)
      else Ok (authenticated, st)
    end
  end.

(** [login]; [now] is [datetime.now().timestamp()]. *)
Definition login (self : manager) (st : session_state) (password : pystr) (now : Q)
  : bool * session_state :=
  if verify_password self password
  then (true, <[k_auth_time := VFloat now]> (<[k_authenticated := VBool true]> st))
  else (false, st).

(** [refresh_session]; the clock is read by the check and again when the
    session is stamped. *)
Definition refresh_session (self : manager) (st : session_state) (now now' : Q)
  : pyres session_state :=
  let? r := is_authenticated self st now in
  let '(ok, st) := r in
  if truthy ok then Ok (<[k_auth_time := VFloat now']> st) else Ok st.


End AuthManager.

(** ** The relational store behind database.py

    The tables of [init_database] that the modelled operations touch, with
    the rows as this program writes them; the SQL statements are functions
    on the tables.  A connection works on a private copy of the tables
    that [commit] publishes; a copy that is never committed is lost. *)

Module Store.

(** [users] *)
Record user_row : Type := {
  u_email : option pystr;
  u_preferences : pyval;
  u_created_at : datetime;
  u_last_active : datetime
}.

(** [conversations] *)
Record conv_row : Type := {
  c_id : Z;
  c_user_id : pystr;
  c_conversation_data : pyval;
  c_created_at : datetime;
  c_session_id : option pystr
}.

(** [conversation_sessions] *)
Record session_row : Type := {
  s_user_id : pystr;
  s_title : pystr;
  s_created_at : datetime;
  s_last_updated : datetime;
  s_message_count : Z
}.

Record db : Type := {
  users : gmap pystr user_row;
  conversations : list conv_row;
  conversations_id_seq : Z;
  conversation_sessions : gmap pystr session_row
}.

Definition with_users (d : db) (u : gmap pystr user_row) : db :=
  {| users := u; conversations := conversations d;
     conversations_id_seq := conversations_id_seq d;
     conversation_sessions := conversation_sessions d |}.

Definition with_conversations (d : db) (c : list conv_row) (seq : Z) : db :=
  {| users := users d; conversations := c; conversations_id_seq := seq;
     conversation_sessions := conversation_sessions d |}.

Definition with_sessions (d : db) (s : gmap pystr session_row) : db :=
  {| users := users d; conversations := conversations d;
     conversations_id_seq := conversations_id_seq d;
     conversation_sessions := s |}.

(** A value that does not fit its [VARCHAR(n)] column. *)
Definition too_long (n : nat) (s : pystr) : bool := (n <? length s)%nat.

(** The rows of [conversations] with [user_id = %s]. *)
Definition conversations_of (user_id : pystr) (d : db) : list conv_row :=
  filter (fun r => c_user_id r = user_id) (conversations d).

(** [ORDER BY created_at DESC]: [r1] may come before [r2]. *)
Definition newer_first (r1 r2 : conv_row) : Prop :=
  dt_key (c_created_at r2) <= dt_key (c_created_at r1).

#[global] Instance newer_first_dec r1 r2 : Decision (newer_first r1 r2) :=
  Z_le_dec _ _.

(** [SELECT preferences FROM users WHERE user_id = %s], then [fetchone()]
    and column 0 of the row. *)
Definition select_preferences (user_id : pystr) (d : db) : option pyval :=
  u_preferences <$> users d !! user_id.

(** [SELECT conversation_data FROM conversations WHERE user_id = %s
    ORDER BY created_at DESC LIMIT 10], then [fetchall()] and column 0 of
    each row. *)
Definition select_recent_conversations (user_id : pystr) (d : db) : list pyval :=
  c_conversation_data <$> take 10 (merge_sort newer_first (conversations_of user_id d)).

(** [INSERT INTO users (user_id, preferences, last_active) VALUES (%s, %s,
    CURRENT_TIMESTAMP) ON CONFLICT (user_id) DO UPDATE SET preferences =
    %s, last_active = CURRENT_TIMESTAMP]. *)
Definition upsert_user_preferences (user_id : pystr) (prefs : pyval)
    (now : datetime) (d : db) : pyres db :=
  if too_long 255 user_id then Raise (Psycopg2Error DataError)
  else
    let row :=
      match users d !! user_id with
      | Some old => {| u_email := u_email old; u_preferences := prefs;
                       u_created_at := u_created_at old; u_last_active := now |}
      | None => {| u_email := None; u_preferences := prefs;
                   u_created_at := now; u_last_active := now |}
      end in
    Ok (with_users d (<[user_id := row]> (users d))).

(** [INSERT INTO users (user_id, last_active) VALUES (%s,
    CURRENT_TIMESTAMP) ON CONFLICT (user_id) DO UPDATE SET last_active =
    CURRENT_TIMESTAMP]; a new row gets the default preferences ['{}']. *)
Definition upsert_user_active (user_id : pystr) (now : datetime) (d : db)
  : pyres db :=
  if too_long 255 user_id then Raise (Psycopg2Error DataError)
  else
    let row :=
      match users d !! user_id with
      | Some old => {| u_email := u_email old; u_preferences := u_preferences old;
                       u_created_at := u_created_at old; u_last_active := now |}
      | None => {| u_email := None; u_preferences := VDict ∅;
                   u_created_at := now; u_last_active := now |}
      end in
    Ok (with_users d (<[user_id := row]> (users d))).

(** [INSERT INTO conversations (user_id, conversation_data) VALUES (%s,
    %s)]; [user_id] references [users]. *)
Definition insert_conversation (user_id : pystr) (data : pyval)
    (now : datetime) (d : db) : pyres db :=
  if too_long 255 user_id then Raise (Psycopg2Error DataError)
  else if bool_decide (is_Some (users d !! user_id)) then
    let row := {| c_id := conversations_id_seq d; c_user_id := user_id;
                  c_conversation_data := data; c_created_at := now;
                  c_session_id := None |} in
    Ok (with_conversations d (conversations d ++ [row]) (conversations_id_seq d + 1))
  else Raise (Psycopg2Error IntegrityError).

(** [DELETE FROM conversations WHERE user_id = %s]. *)
Definition delete_conversations (user_id : pystr) (now : datetime) (d : db)
  : pyres db :=
  Ok (with_conversations d
        (filter (fun r => c_user_id r <> user_id) (conversations d))
        (conversations_id_seq d)).

(** [SELECT COUNT( * ) FROM conversations WHERE user_id = %s], then
    [fetchone()]: always one row. *)
Definition count_conversations (user_id : pystr) (d : db) : option Z :=
  Some (Z.of_nat (length (conversations_of user_id d))).

(** The earliest and the latest of a list of timestamps; [None] is SQL
    [NULL], the aggregate of no rows. *)
Fixpoint min_datetime (l : list datetime) : option datetime :=
  match l with
  | [] => None
  | t :: r =>
    match min_datetime r with
    | None => Some t
    | Some m => Some (if dt_key t <=? dt_key m then t else m)
    end
  end.

Fixpoint max_datetime (l : list datetime) : option datetime :=
  match l with
  | [] => None
  | t :: r =>
    match max_datetime r with
    | None => Some t
    | Some m => Some (if dt_key m <=? dt_key t then t else m)
    end
  end.

(** [SELECT MIN(created_at) FROM conversations WHERE user_id = %s], then
    [fetchone()]: always one row, whose column may be [NULL]. *)
Definition min_created_at (user_id : pystr) (d : db) : option (option datetime) :=
  Some (min_datetime (c_created_at <$> conversations_of user_id d)).

(** [SELECT MAX(created_at) FROM conversations WHERE user_id = %s]. *)
Definition max_created_at (user_id : pystr) (d : db) : option (option datetime) :=
  Some (max_datetime (c_created_at <$> conversations_of user_id d)).

(** [INSERT INTO conversation_sessions (session_id, user_id, title,
    created_at, last_updated) VALUES (%s, %s, %s, CURRENT_TIMESTAMP,
    CURRENT_TIMESTAMP)]: [session_id] is the primary key, [user_id]
    references [users], [title] is [VARCHAR(500)]. *)
Definition insert_session (session_id user_id title : pystr)
    (now : datetime) (d : db) : pyres db :=
  if too_long 255 session_id || too_long 255 user_id || too_long 500 title
  then Raise (Psycopg2Error DataError)
  else if bool_decide (is_Some (conversation_sessions d !! session_id))
  then Raise (Psycopg2Error IntegrityError)
  else if bool_decide (is_Some (users d !! user_id)) then
    let row := {| s_user_id := user_id; s_title := title; s_created_at := now;
                  s_last_updated := now; s_message_count := 0 |} in
    Ok (with_sessions d (<[session_id := row]> (conversation_sessions d)))
  else Raise (Psycopg2Error IntegrityError).

(** [UPDATE conversation_sessions SET title = %s, last_updated =
    CURRENT_TIMESTAMP WHERE session_id = %s]. *)
Definition update_session_title_row (session_id new_title : pystr)
    (now : datetime) (d : db) : pyres db :=
  match conversation_sessions d !! session_id with
  | None => Ok d
  | Some old =>
    if too_long 500 new_title then Raise (Psycopg2Error DataError)
    else
      let row := {| s_user_id := s_user_id old; s_title := new_title;
                    s_created_at := s_created_at old; s_last_updated := now;
                    s_message_count := s_message_count old |} in
      Ok (with_sessions d (<[session_id := row]> (conversation_sessions d)))
  end.

(** *** The world: committed tables, the open transaction, the clock of
    the server, and the faults the environment will inject *)

(** [plan] lists, call by call, whether the next call to the driver
    ([connect], [execute], [commit], [close]) fails and how; past its end
    every call succeeds. *)
Record world : Type := {
  store : db;
  pending : option db;
  plan : list (option dberr);
  clock : datetime
}.

Definition with_pending (w : world) (p : option db) : world :=
  {| store := store w; pending := p; plan := plan w; clock := clock w |}.

Definition with_store (w : world) (d : db) : world :=
  {| store := d; pending := pending w; plan := plan w; clock := clock w |}.

Definition with_plan (w : world) (p : list (option dberr)) : world :=
  {| store := store w; pending := pending w; plan := p; clock := clock w |}.

(** Computations that read and write the world and may raise. *)
Definition M (A : Type) : Type := world -> pyres A * world.

Definition ret {A} (a : A) : M A := fun w => (Ok a, w).

Definition raise {A} (e : exn) : M A := fun w => (Raise e, w).

Definition bind {A B} (m : M A) (k : A -> M B) : M B :=
  fun w =>
    match m w with
    | (Ok a, w') => k a w'
    | (Raise e, w') => (Raise e, w')
    end.

Notation "'do' x <-- m ;; k" := (bind m (fun x => k))
  (at level 10, x name, m at level 99, k at level 200).

(** [try: body  except <catches> as e: handler e] *)
Definition try_except {A} (body : M A) (catches : exn -> bool)
    (handler : exn -> M A) : M A :=
  fun w =>
    match body w with
    | (Ok a, w') => (Ok a, w')
    | (Raise e, w') => if catches e then handler e w' else (Raise e, w')
    end.

(** One call to the driver: it uses up one entry of the plan, and fails
    if that entry says so. *)
Definition next_fault (w : world) : option dberr :=
  match plan w with
  | Some e :: _ => Some e
  | _ => None
  end.

Definition consume (w : world) : world := with_plan w (tail (plan w)).

Definition driver_call {A} (f : M A) : M A :=
  fun w =>
    match next_fault w with
    | Some e => (Raise (Psycopg2Error e), consume w)
    | None => f (consume w)
    end.

(** The environment injects no fault. *)
Definition healthy (w : world) : Prop := Forall (fun f => f = None) (plan w).

(** A connection object. *)
Inductive connection : Type := Connection.

(** [psycopg2.connect(...)]: opens a transaction on the committed tables. *)
Definition connect : M connection :=
  driver_call (fun w => (Ok Connection, with_pending w (Some (store w)))).

(** [cursor.execute] of a statement that changes rows. *)
Definition execute_update (stmt : datetime -> db -> pyres db) : M unit :=
  driver_call (fun w =>
    match pending w with
    | None => (Raise (Psycopg2Error InterfaceError), w)
    | Some d =>
      match stmt (clock w) d with
      | Ok d' => (Ok tt, with_pending w (Some d'))
      | Raise e => (Raise e, w)
      end
    end).

(** [cursor.execute] of a query followed by the fetch of its result. *)
Definition execute_query {A} (q : db -> A) : M A :=
  driver_call (fun w =>
    match pending w with
    | None => (Raise (Psycopg2Error InterfaceError), w)
    | Some d => (Ok (q d), w)
    end).

(** [conn.commit()] *)
Definition commit : M unit :=
  driver_call (fun w =>
    match pending w with
    | None => (Raise (Psycopg2Error InterfaceError), w)
    | Some d => (Ok tt, with_store w d)
    end).

(** [cursor.close()] *)
Definition cursor_close : M unit := driver_call (ret tt).

(** [conn.close()] *)
Definition conn_close : M unit :=
  driver_call (fun w => (Ok tt, with_pending w None)).

End Store.

(** ** database.py: class DatabaseManager *)

Module DatabaseManager.
Import Store.

(** [get_connection]: a failed connection is logged and becomes [None]. *)
Definition get_connection : M (option connection) :=
  try_except (do conn <-- connect ;; ret (Some conn))
    is_OperationalError (fun _ => ret None).

(** The dictionary [{'preferences': p, 'conversations': c}]. *)
Definition user_data (preferences : pyval) (conversations : list pyval) : pyval :=
  VDict (<[str "preferences" := preferences]>
         (<[str "conversations" := VList conversations]> ∅)).

(** [get_user_data]: the [try] block, then the whole method. *)
Definition get_user_data_body (user_id : pystr) : M pyval :=
  do conn <-- get_connection ;;
  match conn with
  | None => ret (user_data (VDict ∅) [])
  | Some _ =>
    do result <-- execute_query (select_preferences user_id) ;;
    let preferences := match result with Some p => p | None => VDict ∅ end in
    do conversations <-- execute_query (select_recent_conversations user_id) ;;
    do _ <-- cursor_close ;;
    do _ <-- conn_close ;;
    ret (user_data preferences conversations)
  end.

Definition get_user_data (user_id : pystr) : M pyval :=
  try_except (get_user_data_body user_id)
    is_psycopg2_Error (fun _ => ret (user_data (VDict ∅) [])).

(** [json.dumps(v)] as the JSONB column receives it and as the driver
    hands it back on a later read: the document that [v] denotes. *)
Definition json_dumps (v : pyval) : pyval := v.

(** [update_user_preferences] *)
Definition update_user_preferences_body (user_id : pystr) (preferences : pyval)
  : M pyval :=
  do conn <-- get_connection ;;
  match conn with
  | None => ret (VBool false)
  | Some _ =>
    do _ <-- execute_update (upsert_user_preferences user_id (json_dumps preferences)) ;;
    do _ <-- commit ;;
    do _ <-- cursor_close ;;
    do _ <-- conn_close ;;
    ret (VBool true)
  end.

Definition update_user_preferences (user_id : pystr) (preferences : pyval)
  : M pyval :=
  try_except (update_user_preferences_body user_id preferences)
    is_psycopg2_Error (fun _ => ret (VBool false)).

(** [save_conversation] *)
Definition save_conversation_body (user_id : pystr) (conversation_data : pyval)
  : M pyval :=
  do conn <-- get_connection ;;
  match conn with
  | None => ret (VBool false)
  | Some _ =>
    do _ <-- execute_update (upsert_user_active user_id) ;;
    do _ <-- execute_update (insert_conversation user_id (json_dumps conversation_data)) ;;
    do _ <-- commit ;;
    do _ <-- cursor_close ;;
    do _ <-- conn_close ;;
    ret (VBool true)
  end.

Definition save_conversation (user_id : pystr) (conversation_data : pyval)
  : M pyval :=
  try_except (save_conversation_body user_id conversation_data)
    is_psycopg2_Error (fun _ => ret (VBool false)).

(** [clear_user_conversations] *)
Definition clear_user_conversations_body (user_id : pystr) : M pyval :=
  do conn <-- get_connection ;;
  match conn with
  | None => ret (VBool false)
  | Some _ =>
    do _ <-- execute_update (delete_conversations user_id) ;;
    do _ <-- commit ;;
    do _ <-- cursor_close ;;
    do _ <-- conn_close ;;
    ret (VBool true)
  end.

Definition clear_user_conversations (user_id : pystr) : M pyval :=
  try_except (clear_user_conversations_body user_id)
    is_psycopg2_Error (fun _ => ret (VBool false)).

(** [get_conversation_count] *)
Definition get_conversation_count_body (user_id : pystr) : M pyval :=
  do conn <-- get_connection ;;
  match conn with
  | None => ret (VInt 0)
  | Some _ =>
    do result <-- execute_query (count_conversations user_id) ;;
    let count := match result with Some n => n | None => 0 end in
    do _ <-- cursor_close ;;
    do _ <-- conn_close ;;
    ret (VInt count)
  end.

Definition get_conversation_count (user_id : pystr) : M pyval :=
  try_except (get_conversation_count_body user_id)
    is_psycopg2_Error (fun _ => ret (VInt 0)).

(** [t.isoformat() if t else None] on a fetched timestamp. *)
Definition isoformat_or_none (t : option datetime) : pyval :=
  match t with
  | Some t => VStr (isoformat t)
  | None => VNone
  end.

(** [get_user_analytics] *)
Definition get_user_analytics_body (user_id : pystr) : M pyval :=
  do conn <-- get_connection ;;
  match conn with
  | None => ret (VDict ∅)
  | Some _ =>
    let analytics : pydict := ∅ in
    do result <-- execute_query (count_conversations user_id) ;;
    let analytics :=
      <[str "total_conversations" :=
          VInt (match result with Some n => n | None => 0 end)]> analytics in
    do result <-- execute_query (min_created_at user_id) ;;
    let first_interaction := match result with Some t => t | None => None end in
    let analytics :=
      <[str "first_interaction" := isoformat_or_none first_interaction]> analytics in
    do result <-- execute_query (max_created_at user_id) ;;
    let last_interaction := match result with Some t => t | None => None end in
    let analytics :=
      <[str "last_interaction" := isoformat_or_none last_interaction]> analytics in
    do _ <-- cursor_close ;;
    do _ <-- conn_close ;;
    ret (VDict analytics)
  end.

Definition get_user_analytics (user_id : pystr) : M pyval :=
  try_except (get_user_analytics_body user_id)
    is_psycopg2_Error (fun _ => ret (VDict ∅)).





End DatabaseManager.

(** ** conversation_manager.py: class ConversationManager *)

Module ConversationManager.
Import Store DatabaseManager.

(** [str(uuid.uuid4())]: [entropy] stands for the sixteen bytes of
    [os.urandom(16)] read as a big-endian number; the version and variant
    bits are forced, and the number is printed as 8-4-4-4-12 hexadecimal
    digits. *)
Definition uuid4_int (entropy : N) : N :=
  let int := (entropy mod 2 ^ 128)%N in
  let int := N.ldiff int (N.shiftl 49152 48) in
  let int := N.lor int (N.shiftl 32768 48) in
  let int := N.ldiff int (N.shiftl 61440 64) in
  N.lor int (N.shiftl 4 76).

Definition uuid4_str (entropy : N) : pystr :=
  let h := hex 32 (uuid4_int entropy) in
  take 8 h ++ str "-" ++ take 4 (drop 8 h) ++ str "-" ++ take 4 (drop 12 h)
  ++ str "-" ++ take 4 (drop 16 h) ++ str "-" ++ drop 20 h.

(** [create_new_session]: the [try] block either returns early (no
    connection) or falls through to the final [return session_id]. *)
Definition create_new_session_body (session_id user_id title : pystr)
  : M (option pystr) :=
  do conn <-- get_connection ;;
  match conn with
  | None => ret (Some session_id)
  | Some _ =>
    do _ <-- execute_update (insert_session session_id user_id title) ;;
    do _ <-- commit ;;
    do _ <-- cursor_close ;;
    do _ <-- conn_close ;;
    ret None
  end.

(** [entropy] feeds [uuid.uuid4()], [now] is [datetime.datetime.now()]. *)
Definition create_new_session (user_id : pystr) (title : option pystr)
    (entropy : N) (now : datetime) : M pystr :=
  let session_id := uuid4_str entropy in
  let title :=
    match title with
    | None => str "Travel Chat - " ++ strftime_mdHM now
    | Some t => t
    end in
  do early <-- try_except (create_new_session_body session_id user_id title)
                 is_Exception (fun _ => ret None) ;;
  match early with
  | Some r => ret r
  | None => ret session_id
  end.

(** [update_session_title] *)
Definition update_session_title_body (session_id new_title : pystr) : M bool :=
  do conn <-- get_connection ;;
  match conn with
  | None => ret false
  | Some _ =>
    do _ <-- execute_update (update_session_title_row session_id new_title) ;;
    do _ <-- commit ;;
    do _ <-- cursor_close ;;
    do _ <-- conn_close ;;
    ret true
  end.

Definition update_session_title (session_id new_title : pystr) : M bool :=
  try_except (update_session_title_body session_id new_title)
    is_Exception (fun _ => ret false).

(** The title that [auto_generate_title] computes from the first message;
    [now] is [datetime.datetime.now()]. *)
Definition generated_title (first_message : pystr) (now : datetime) : pystr :=
  let words := take 6 (split first_message) in
  let title := join (str " ") words in
  if (50 <? length title)%nat then take 47 title ++ str "..."
  else if (length title <? 10)%nat then str "Travel Chat - " ++ strftime_md now
  else title.

(** [auto_generate_title]: stores the title, whatever the outcome, and
    returns it. *)
Definition auto_generate_title (session_id first_message : pystr)
    (now : datetime) : M pystr :=
  let title := generated_title first_message now in
  do _ <-- update_session_title session_id title ;;
  ret title.

End ConversationManager.

(** ** travel_prompts.py: welcome message and conversation starters *)

Module Suggestions.
Import TravelPrompts.

(** [random.choice(seq)]: the element at [randbelow(len(seq))]; [draw]
    is the random number, reduced to the range. *)
Definition choice {A} (default : A) (seq : list A) (draw : nat) : A :=
  nth (draw mod length seq) seq default.

(** [random.sample(population, k)] as CPython computes it for a small
    population: [k] times, pick the entry at [randbelow(n - i)] of the
    pool and move the last entry of the pool into the vacancy. *)
Fixpoint sample_pool {A} (pool : list A) (k : nat) (draws : list nat) : list A :=
  match k with
  | O => []
  | S k' =>
    match pool with
    | [] => []
    | x :: _ =>
      let n := length pool in
      let j := (hd 0%nat draws mod n)%nat in
      nth j pool x
        :: sample_pool (take (n - 1) (<[j := nth (n - 1) pool x]> pool)) k' (tl draws)
    end
  end.

Definition welcome_messages : list pystr := [
    str "Welcome to your personal Travel Assistant! I'm here to help you plan amazing journeys and discover incredible destinations. What adventure shall we plan today?";
    str "Hello there, fellow traveler! Ready to explore the world? I can help you with everything from flight bookings to hidden local gems. Where would you like to go?";
    str "Greetings! Your Travel Assistant is ready to make your wanderlust dreams come true. Whether you're planning a quick getaway or a grand adventure, I'm here to help!";
    str "Welcome aboard! I'm your AI travel companion, ready to help you navigate the world of travel. From budget tips to luxury experiences, let's make your next trip unforgettable!"
  ].

Definition quick_tips : list pystr := [
    str "💡 Tip: Book flights 6-8 weeks in advance for the best domestic deals!";
    str "🌍 Did you know? Traveling during shoulder season can save you up to 50% on accommodations!";
    str "📱 Pro tip: Download offline maps before you travel to save on roaming charges!";
    str "🎒 Pack light: Choose versatile clothing items that can be mixed and matched!";
    str "💳 Always notify your bank before traveling internationally to avoid card blocks!"
  ].

(** [_format_preferences] *)
Definition _format_preferences (prefs : preferences) : pystr :=
  let pref_parts := [] in
  let pref_parts :=
    match get_truthy (budget_range prefs) with
    | Some budget => pref_parts ++ [lower budget ++ str " travel"]
    | None => pref_parts
    end in
  let pref_parts :=
    match get_truthy (travel_style prefs) with
    | Some styles => pref_parts ++ [lower (join (str " and ") styles) ++ str " experiences"]
    | None => pref_parts
    end in
  let pref_parts :=
    match get_truthy (preferred_climate prefs) with
    | Some climate =>
      if bool_decide (climate <> str "No preference")
      then pref_parts ++ [lower climate ++ str " destinations"]
      else pref_parts
    | None => pref_parts
    end in
  match pref_parts with
  | [] => str "personalized travel experiences"
  | _ => join (str ", ") pref_parts
  end.

(** [any(user_preferences.values())]: some value of the dictionary is
    truthy. *)
Definition any_value (prefs : preferences) : bool :=
  bool_decide (is_Some (get_truthy (budget_range prefs)))
  || bool_decide (is_Some (get_truthy (travel_style prefs)))
  || bool_decide (is_Some (get_truthy (preferred_climate prefs)))
  || bool_decide (is_Some (get_truthy (last_updated prefs))).

(** [get_welcome_message]; [draw1] and [draw2] are the random numbers of
    the two [random.choice] calls. *)
Definition get_welcome_message (user_preferences : option preferences)
    (draw1 draw2 : nat) : pystr :=
  let base_message := choice [] welcome_messages draw1 in
  let base_message :=
    match user_preferences with
    | Some prefs =>
      if prefs_nonempty prefs && any_value prefs then
        let preferences_text := _format_preferences prefs in
        base_message ++ str "

🎯 I notice you prefer " ++ preferences_text
          ++ str ". I'll keep that in mind for our conversation!"
      else base_message
    | None => base_message
    end in
  let tip := choice [] quick_tips draw2 in
  base_message ++ str "

" ++ tip.

Definition base_starters : list pystr := [
    str "Help me plan a weekend getaway";
    str "I need to find the best flights for my budget";
    str "What are the must-see attractions in [destination]?";
    str "Plan a 7-day itinerary for my vacation";
    str "Find me unique accommodations in [city]";
    str "What's the best time to visit [destination]?";
    str "Help me create a travel budget";
    str "I need travel tips for solo travelers"
  ].

(** The list of starters before the random selection. *)
Definition candidate_starters (user_preferences : option preferences) : list pystr :=
  let starters := base_starters in
  match user_preferences with
  | Some prefs =>
    if prefs_nonempty prefs then
      let starters :=
        match get_truthy (travel_style prefs) with
        | Some styles =>
          let starters :=
            if bool_decide (str "Adventure" ∈ styles)
            then starters ++ [str "Find me the best adventure destinations"]
            else starters in
          if bool_decide (str "Culture" ∈ styles)
          then starters ++ [str "Recommend cultural experiences and festivals"]
          else starters
        | None => starters
        end in
      if bool_decide (budget_range prefs = Some (str "Budget"))
      then starters ++ [str "Show me how to travel on a tight budget"]
      else starters
    else starters
  | None => starters
  end.

(** [get_conversation_starters]; [draws] are the random numbers that
    [random.sample] consumes. *)
Definition get_conversation_starters (user_preferences : option preferences)
    (draws : list nat) : list pystr :=
  let starters := candidate_starters user_preferences in
  sample_pool starters (Nat.min 6 (length starters)) draws.

End Suggestions.

(** ** groq_client.py: the travel prompt and the key check *)

Module TravelClient.
Import TravelPrompts GroqClient.

(** The [context] dictionary of [get_travel_response]: its two keys, each
    of which may be absent. *)
Record context : Type := {
  ctx_preferences : option preferences;
  ctx_conversation_history : option (list pydict)
}.

Definition travel_prompt_head : pystr := str "You are an expert Travel Assistant AI with comprehensive knowledge of global destinations, travel planning, booking procedures, and local insights. You help users plan, book, and optimize their travel experiences.

Your capabilities include:
- Destination recommendations based on preferences, budget, and interests
- Flight, hotel, and activity booking guidance
- Local insights, cultural tips, and hidden gems
- Budget optimization and travel cost analysis
- Itinerary planning and schedule optimization
- Real-time travel updates and safety information
- Visa requirements and travel documentation
- Weather patterns and best travel times
- Transportation options and local logistics

".

Definition travel_prompt_tail : pystr := str "
Guidelines for responses:
- Provide specific, actionable advice with concrete next steps
- Include relevant costs, timeframes, and booking platforms when applicable
- Suggest alternatives and backup options
- Consider seasonal factors, local events, and travel restrictions
- Be enthusiastic but realistic about recommendations
- Ask clarifying questions when needed to provide better assistance
- Include safety considerations and travel tips
- Provide links to relevant booking platforms or information sources when helpful

Keep responses informative yet conversational, and always prioritize the user's safety and satisfaction.
".

(** [_build_travel_system_prompt]; the history is read from the context
    and not used. *)
Definition _build_travel_system_prompt (context : context) : pystr :=
  let preferences := ctx_preferences context in
  let conversation_history := default [] (ctx_conversation_history context) in
  let system_prompt := travel_prompt_head in
  let system_prompt :=
    match preferences with
    | Some prefs =>
      if prefs_nonempty prefs then
        let system_prompt := system_prompt ++ str "
User Preferences:
" in
        let system_prompt :=
          match get_truthy (budget_range prefs) with
          | Some budget => system_prompt ++ str "- Budget: " ++ budget ++ str "
"
          | None => system_prompt
          end in
        let system_prompt :=
          match get_truthy (travel_style prefs) with
          | Some styles =>
            system_prompt ++ str "- Travel Style: " ++ join (str ", ") styles ++ str "
"
          | None => system_prompt
          end in
        match get_truthy (preferred_climate prefs) with
        | Some climate =>
          system_prompt ++ str "- Preferred Climate: " ++ climate ++ str "
"
        | None => system_prompt
        end
      else system_prompt
    | None => system_prompt
    end in
  system_prompt ++ travel_prompt_tail.

(** [get_travel_response]: [except Exception] around the whole body. *)
Definition get_travel_response (self : client) (post : endpoint)
    (user_query : pystr) (context : context) : pyres (option pystr) :=
  let system_prompt := _build_travel_system_prompt context in
  let messages := [make_message (VStr (str "system")) (VStr system_prompt);
                   make_message (VStr (str "user")) (VStr user_query)] in
  match get_response self post messages (8 # 10) 1024 with
  | Ok r => Ok r
  | Raise e => if is_Exception e then Ok None else Raise e
  end.

(** [validate_api_key] *)
Definition validate_api_key (self : client) (post : endpoint) : pyres bool :=
  let test_messages := [make_message (VStr (str "user")) (VStr (str "Hello"))] in
  match get_response self post test_messages (7 # 10) 10 with
  | Ok response => Ok (bool_decide (is_Some response))
  | Raise e => if is_Exception e then Ok false else Raise e
  end.

(** The vocabulary of the properties: the text that a completion choice
    carries at [choice['message']['content']], when it carries one. *)
Definition first_content (choice : pyval) : option pystr :=
  match choice with
  | VDict c =>
    match c !! str "message" with
    | Some (VDict m) =>
      match m !! str "content" with
      | Some (VStr s) => Some s
      | _ => None
      end
    | _ => None
    end
  | _ => None
  end.

End TravelClient.

(** ** conversation_manager.py: reading the sessions *)

Module Sessions.
Import Store DatabaseManager.

(** [ORDER BY last_updated DESC] *)
Definition recent_first (s1 s2 : pystr * session_row) : Prop :=
  dt_key (s_last_updated s2.2) <= dt_key (s_last_updated s1.2).

#[global] Instance recent_first_dec s1 s2 : Decision (recent_first s1 s2) :=
  Z_le_dec _ _.

(** [SELECT session_id, title, created_at, last_updated, message_count
    FROM conversation_sessions WHERE user_id = %s ORDER BY last_updated
    DESC LIMIT %s], then [fetchall()]; a negative limit is an error. *)
Definition select_sessions (user_id : pystr) (limit : Z) (d : db)
  : pyres (list (pystr * session_row)) :=
  if limit <? 0 then Raise (Psycopg2Error DataError)
  else Ok (take (Z.to_nat limit)
             (merge_sort recent_first
                (filter (fun s => s_user_id s.2 = user_id)
                   (map_to_list (conversation_sessions d))))).

(** One row as the dictionary that [get_user_sessions] builds; the
    timestamps are kept as they are. *)
Record session_summary : Type := {
  sum_session_id : pystr;
  sum_title : pystr;
  sum_created_at : datetime;
  sum_last_updated : datetime;
  sum_message_count : Z
}.

Definition summary_of (s : pystr * session_row) : session_summary :=
  {| sum_session_id := s.1; sum_title := s_title s.2;
     sum_created_at := s_created_at s.2;
     sum_last_updated := s_last_updated s.2;
     sum_message_count := s_message_count s.2 |}.

(** [cursor.execute] of a query that may fail by itself. *)
Definition execute_checked_query {A} (q : db -> pyres A) : M A :=
  driver_call (fun w =>
    match pending w with
    | None => (Raise (Psycopg2Error InterfaceError), w)
    | Some d => (q d, w)
    end).

(** [get_user_sessions] *)
Definition get_user_sessions_body (user_id : pystr) (limit : Z)
  : M (list session_summary) :=
  do conn <-- get_connection ;;
  match conn with
  | None => ret []
  | Some _ =>
    do rows <-- execute_checked_query (select_sessions user_id limit) ;;
    let sessions := summary_of <$> rows in
    do _ <-- cursor_close ;;
    do _ <-- conn_close ;;
    ret sessions
  end.

Definition get_user_sessions (user_id : pystr) (limit : Z) : M (list session_summary) :=
  try_except (get_user_sessions_body user_id limit) is_Exception (fun _ => ret []).



End Sessions.

(** ** Sample inputs, used to run the theorems on concrete data *)

Module Samples.
Import TravelPrompts.

(** A date with every field zero but the month. *)
Definition in_month (m : Z) : datetime :=
  {| year := 2024; month := m; day := 1;
     hour := 0; minute := 0; second := 0; microsecond := 0 |}.

Definition sample_now : datetime :=
  {| year := 2024; month := 3; day := 9;
     hour := 14; minute := 5; second := 30; microsecond := 0 |}.

Definition msg (role content : string) : pydict :=
  make_message (VStr (str role)) (VStr (str content)).

(** Six turns, one of them with a role that is dropped. *)
Definition sample_history : list pydict :=
  [msg "user" "Hello"; msg "assistant" "Welcome";
   msg "user" "Beach or mountains?"; msg "tool" "lookup";
   msg "assistant" "Beach"; msg "user" "Where exactly?"].

(** A client, and two networks: one that answers 200 with a completion,
    one that answers 500. *)
Definition sample_client : GroqClient.client :=
  {| GroqClient.api_key := str "gsk_test";
     GroqClient.base_url := str "https://api.groq.com/openai/v1/chat/completions";
     GroqClient.model := str "llama-3.1-8b-instant";
     GroqClient.headers := [(str "Authorization", str "Bearer gsk_test");
                            (str "Content-Type", str "application/json")] |}.

Definition completion_body (content : string) : pyval :=
  VDict (<[str "choices" :=
             VList [VDict (<[str "message" :=
                               VDict (<[str "content" := VStr (str content)]> ∅)]> ∅)]]> ∅).

Definition network_ok : GroqClient.endpoint :=
  fun _ _ _ _ =>
    Ok {| GroqClient.status_code := 200; GroqClient.text := [];
          GroqClient.json := Ok (completion_body " Paris is lovely ") |}.

Definition network_500 : GroqClient.endpoint :=
  fun _ _ _ _ =>
    Ok {| GroqClient.status_code := 500;
          GroqClient.text := str "Internal Server Error";
          GroqClient.json := Raise JSONDecodeError |}.

Definition network_down : GroqClient.endpoint :=
  fun _ _ _ _ => Raise RequestException.

(** A store with one user and twelve conversations, one per day. *)
Definition on_day (d : Z) : datetime :=
  {| year := 2024; month := 3; day := d;
     hour := 10; minute := 0; second := 0; microsecond := 0 |}.

Definition sample_user : pystr := str "5d41402abc4b2a76b9719d911017c592".

Definition sample_row (d : Z) : Store.conv_row :=
  {| Store.c_id := d; Store.c_user_id := sample_user;
     Store.c_conversation_data := VInt d;
     Store.c_created_at := on_day d; Store.c_session_id := None |}.

Definition sample_db : Store.db :=
  {| Store.users :=
       <[sample_user :=
           {| Store.u_email := None;
              Store.u_preferences := VDict (<[str "budget_range" := VStr (str "Budget")]> ∅);
              Store.u_created_at := on_day 1; Store.u_last_active := on_day 12 |}]> ∅;
     Store.conversations := sample_row <$> [3; 1; 4; 12; 5; 9; 2; 6; 11; 8; 7; 10];
     Store.conversations_id_seq := 13;
     Store.conversation_sessions := ∅ |}.

Definition sample_world : Store.world :=
  {| Store.store := sample_db; Store.pending := None;
     Store.plan := []; Store.clock := on_day 13 |}.

(** The same store, unreachable; and reachable but failing at the first
    statement. *)
Definition world_down : Store.world :=
  Store.with_plan sample_world [Some OperationalError].


End Samples.
(* ===================================================================== *)
(** * Part II.  Lemmas and theorems                                       *)
(* ===================================================================== *)

(** ** Prompt assembly *)

Section PromptAssembly.
Import TravelPrompts.

(** The message that [build_context] makes out of a history entry. *)
Lemma role_is_chat_role (m : pydict) :
  role_is_chat m = true ->
  m !! str "role" = Some (VStr (str "user"))
  \/ m !! str "role" = Some (VStr (str "assistant")).
Proof.
  unfold role_is_chat, dict_get.
  destruct (m !! str "role") as [[| | | | r | |]|]; try discriminate.
  intros H. apply orb_true_iff in H as [H | H];
    apply bool_decide_eq_true in H; subst; auto.
Qed.

Lemma make_message_role (role content : pyval) :
  make_message role content !! str "role" = Some role.
Proof. unfold make_message. apply lookup_insert_eq. Qed.

Lemma make_message_content (role content : pyval) :
  make_message role content !! str "content" = Some content.
Proof.
  unfold make_message. rewrite lookup_insert_ne by (vm_compute; discriminate).
  apply lookup_insert_eq.
Qed.

(** The last four entries of a list, as the slice [h[-4:]] takes them. *)
Lemma recent_history_drop (h : list pydict) :
  recent_history h = drop (length h - 4) h.
Proof.
  unfold recent_history. destruct (4 <? length h)%nat eqn:E; [reflexivity|].
  apply Nat.ltb_ge in E. replace (length h - 4)%nat with 0%nat by lia.
  reflexivity.
Qed.

Lemma recent_history_length (h : list pydict) :
  (length (recent_history h) <= 4)%nat.
Proof. rewrite recent_history_drop, length_drop. lia. Qed.

End PromptAssembly.
Section PromptAssemblyMain.
Import TravelPrompts.

Lemma append_history_ok (recent acc : list pydict) :
  Forall has_content recent ->
  append_history acc recent
  = Ok (acc ++ (as_message <$> filter (fun m => role_is_chat m = true) recent)).
Proof.
  revert acc. induction recent as [|m rest IH]; intros acc Hall; simpl.
  - rewrite app_nil_r. reflexivity.
  - inversion Hall as [|? ? Hm Hrest]; subst.
    rewrite filter_cons. destruct (role_is_chat m) eqn:Erole.
    + rewrite decide_True by reflexivity.
      destruct (role_is_chat_role m Erole) as [Hr | Hr];
        destruct (Hm Erole) as [c Hc];
        unfold dict_item; rewrite Hr, Hc; simpl;
        rewrite IH by assumption; rewrite <- app_assoc; simpl;
        unfold as_message, dict_get; rewrite Hr, Hc; reflexivity.
    + rewrite decide_False by discriminate. apply IH. assumption.
Qed.

Lemma append_history_returns (recent acc out : list pydict) :
  append_history acc recent = Ok out -> Forall has_content recent.
Proof.
  revert acc. induction recent as [|m rest IH]; intros acc H; simpl in H.
  - constructor.
  - destruct (role_is_chat m) eqn:Erole.
    + destruct (role_is_chat_role m Erole) as [Hr | Hr];
        unfold dict_item in H; rewrite Hr in H; simpl in H;
        destruct (m !! str "content") as [c|] eqn:Hc; simpl in H;
        try discriminate;
        (constructor; [intros _; rewrite Hc; eauto | eapply IH; eassumption]).
    + constructor; [intros Habs; congruence | eapply IH; eassumption].
Qed.

(** An entry that is kept without a content makes the loop raise
    [KeyError('content')]. *)
Lemma append_history_raises (recent acc : list pydict) (e : exn) :
  append_history acc recent = Raise e ->
  e = KeyError (str "content") /\ Exists (fun m => ~ has_content m) recent.
Proof.
  revert acc. induction recent as [|m rest IH]; intros acc H; simpl in H.
  - discriminate.
  - destruct (role_is_chat m) eqn:Erole.
    + destruct (role_is_chat_role m Erole) as [Hr | Hr];
        unfold dict_item in H; rewrite Hr in H; simpl in H;
        destruct (m !! str "content") as [c|] eqn:Hc; simpl in H.
      * destruct (IH _ H) as [-> Hex]. split; [reflexivity | right; assumption].
      * inversion H; subst. split; [reflexivity|]. left. intros Hm.
        destruct (Hm Erole) as [c Hcc]. congruence.
      * destruct (IH _ H) as [-> Hex]. split; [reflexivity | right; assumption].
      * inversion H; subst. split; [reflexivity|]. left. intros Hm.
        destruct (Hm Erole) as [c Hcc]. congruence.
    + destruct (IH _ H) as [-> Hex]. split; [reflexivity | right; assumption].
Qed.

Lemma window_recent (h : list pydict) : window (Some h) = recent_history h.
Proof. unfold window. simpl. symmetry. apply recent_history_drop. Qed.

Lemma kept_roles (l : list pydict) :
  Forall (fun m => m !! str "role" = Some (VStr (str "user"))
                   \/ m !! str "role" = Some (VStr (str "assistant")))
    (as_message <$> filter (fun m => role_is_chat m = true) l).
Proof.
  apply Forall_fmap, Forall_forall. intros m Hm.
  apply list_elem_of_filter in Hm as [Hrole _]. simpl.
  unfold as_message. rewrite make_message_role. unfold dict_get.
  destruct (role_is_chat_role m Hrole) as [-> | ->]; auto.
Qed.

Lemma kept_length (h : option (list pydict)) :
  (length (as_message <$> filter (fun m => role_is_chat m = true) (window h)) <= 4)%nat.
Proof.
  rewrite length_fmap.
  etransitivity; [apply length_filter|].
  unfold window. rewrite length_drop. lia.
Qed.

(** The loop of [build_context], whatever the history. *)
Lemma build_context_unfold prefs history query now :
  build_context prefs history query now
  = let? messages :=
      append_history
        [make_message (VStr (str "system")) (VStr (_get_system_prompt prefs now))]
        (window history) in
    Ok (messages ++ [make_message (VStr (str "user")) (VStr query)]).
Proof.
  unfold build_context. destruct history as [[|m h]|]; try reflexivity.
  rewrite window_recent. reflexivity.
Qed.

(** C1. Whenever [build_context] returns a message list, its first
    element has role "system", its last element is the query as a "user"
    message, and the segment in between has at most four messages, all of
    role "user" or "assistant": the entries of the last four history
    elements with exactly such a role, in order, reduced to role and
    content.  It returns a list whenever the kept entries carry a
    content. *)
Theorem build_context_shape
    (prefs : option preferences) (history : option (list pydict))
    (query : pystr) (now : datetime) :
  (forall out, build_context prefs history query now = Ok out ->
     exists system mid,
       out = system :: mid ++ [make_message (VStr (str "user")) (VStr query)]
       /\ system !! str "role" = Some (VStr (str "system"))
       /\ (length mid <= 4)%nat
       /\ Forall (fun m => m !! str "role" = Some (VStr (str "user"))
                           \/ m !! str "role" = Some (VStr (str "assistant"))) mid
       /\ mid = as_message <$> filter (fun m => role_is_chat m = true) (window history))
  /\ (Forall has_content (window history) ->
      exists out, build_context prefs history query now = Ok out).
Proof.
  rewrite build_context_unfold. split.
  - intros out H.
    destruct (append_history _ (window history)) as [msgs|e] eqn:E; [|discriminate].
    simpl in H. inversion H; subst out; clear H.
    pose proof (append_history_returns _ _ _ E) as Hall.
    rewrite (append_history_ok _ _ Hall) in E. inversion E; subst msgs; clear E.
    eexists _, _. split; [reflexivity|].
    split; [apply make_message_role|].
    split; [apply kept_length|].
    split; [apply kept_roles | reflexivity].
  - intros Hall. rewrite (append_history_ok _ _ Hall). simpl. eauto.
Qed.

Lemma build_context_shape_witness :
  exists out,
    build_context None (Some Samples.sample_history) (str "And when?") Samples.sample_now
    = Ok out
    /\ length out = 5%nat
    /\ (fun m => m !! str "content") <$> drop 1 out
       = [Some (VStr (str "Beach or mountains?")); Some (VStr (str "Beach"));
          Some (VStr (str "Where exactly?")); Some (VStr (str "And when?"))].
Proof.
  destruct (build_context_shape None (Some Samples.sample_history)
              (str "And when?") Samples.sample_now) as [Hshape Hreturns].
  destruct Hreturns as [out Hout].
  { repeat constructor; intros _; vm_compute; eauto. }
  exists out. split; [exact Hout|].
  destruct (Hshape out Hout) as (system & mid & -> & _ & _ & _ & ->).
  split; vm_compute; reflexivity.
Defined.

(** [_get_current_season] *)
Ltac season_case :=
  unfold _get_current_season;
  repeat match goal with
         | H : _ \/ _ |- _ => destruct H as [H | H]
         end;
  match goal with H : month _ = _ |- _ => rewrite H end;
  vm_compute; reflexivity.

(** C4. The season is a function of the month alone: months 12, 1, 2
    give "winter"; 3, 4, 5 give "spring"; 6, 7, 8 give "summer"; 9, 10, 11
    give "autumn". *)
Theorem season_of_month (now : datetime) :
  (month now = 12 \/ month now = 1 \/ month now = 2 ->
     _get_current_season now = str "winter")
  /\ (month now = 3 \/ month now = 4 \/ month now = 5 ->
     _get_current_season now = str "spring")
  /\ (month now = 6 \/ month now = 7 \/ month now = 8 ->
     _get_current_season now = str "summer")
  /\ (month now = 9 \/ month now = 10 \/ month now = 11 ->
     _get_current_season now = str "autumn")
  /\ (forall other, month other = month now ->
     _get_current_season other = _get_current_season now).
Proof.
  repeat split; try (intros H; season_case).
  intros other H. unfold _get_current_season. rewrite H. reflexivity.
Qed.

Ltac season_at m :=
  let Hw := fresh in let Hsp := fresh in let Hsu := fresh in let Hau := fresh in
  destruct (season_of_month (Samples.in_month m)) as (Hw & Hsp & Hsu & Hau & _);
  first [ rewrite Hw by (cbn; lia) | rewrite Hsp by (cbn; lia)
        | rewrite Hsu by (cbn; lia) | rewrite Hau by (cbn; lia) ];
  clear Hw Hsp Hsu Hau.

Lemma season_of_month_witness :
  (fun m => _get_current_season (Samples.in_month m)) <$> [1; 2; 3; 4; 5; 6; 7; 8; 9; 10; 11; 12]
  = [str "winter"; str "winter"; str "spring"; str "spring"; str "spring";
     str "summer"; str "summer"; str "summer";
     str "autumn"; str "autumn"; str "autumn"; str "winter"].
Proof.
  cbn [fmap list_fmap].
  season_at 1. season_at 2. season_at 3. season_at 4. season_at 5. season_at 6.
  season_at 7. season_at 8. season_at 9. season_at 10. season_at 11. season_at 12.
  reflexivity.
Defined.

End PromptAssemblyMain.
(** ** Strings *)

Section Strings.

Lemma lstrip_spec (s : pystr) :
  exists l, s = l ++ lstrip s /\ Forall blank l
            /\ (forall c, head (lstrip s) = Some c -> solid c).
Proof.
  induction s as [|c r (l & Heq & Hl & Hhead)]; simpl.
  - exists []. repeat split; [constructor | discriminate].
  - destruct (isspace c) eqn:E.
    + exists (c :: l). simpl. rewrite <- Heq. repeat split; [constructor|]; assumption.
    + exists []. repeat split; [constructor|].
      simpl. intros c' H. inversion H; subst. exact E.
Qed.

Lemma rstrip_spec (s : pystr) :
  exists r, s = rstrip s ++ r /\ Forall blank r
            /\ (forall c, last (rstrip s) = Some c -> solid c).
Proof.
  unfold rstrip. destruct (lstrip_spec (reverse s)) as (l & Heq & Hl & Hhead).
  exists (reverse l). split; [|split].
  - rewrite <- reverse_app, <- Heq, reverse_involutive. reflexivity.
  - apply Forall_reverse. exact Hl.
  - intros c Hc. apply Hhead. rewrite <- Hc. symmetry. apply last_reverse.
Qed.

Lemma rstrip_prefix_head (t : pystr) (c : N) :
  head (rstrip t) = Some c -> head t = Some c.
Proof.
  destruct (rstrip_spec t) as (r & Heq & _). intros H.
  rewrite Heq. destruct (rstrip t); [discriminate | exact H].
Qed.

(** [strip] removes exactly a run of whitespace at each end. *)
Lemma strip_spec (s : pystr) :
  exists l r, s = l ++ strip s ++ r
    /\ Forall blank l /\ Forall blank r
    /\ (forall c, head (strip s) = Some c -> solid c)
    /\ (forall c, last (strip s) = Some c -> solid c).
Proof.
  unfold strip.
  destruct (lstrip_spec s) as (l & Hl & Hbl & Hhead).
  destruct (rstrip_spec (lstrip s)) as (r & Hr & Hbr & Hlast).
  exists l, r. repeat split; try assumption.
  - rewrite <- Hr. exact Hl.
  - intros c Hc. apply Hhead. apply rstrip_prefix_head. exact Hc.
Qed.

(** The words of [split] are not empty and hold no whitespace. *)
Lemma split_acc_words (s w : pystr) :
  Forall solid w ->
  Forall (fun x => x <> [] /\ Forall solid x) (split_acc w s).
Proof.
  revert w. induction s as [|c r IH]; intros w Hw; simpl.
  - destruct w; repeat constructor; [discriminate | | ]; inversion Hw; assumption.
  - destruct (isspace c) eqn:E.
    + destruct w.
      * apply IH. constructor.
      * constructor; [split; [discriminate | assumption]|]. apply IH. constructor.
    + apply IH. apply Forall_app. split; [assumption | repeat constructor; exact E].
Qed.

Lemma split_words (s : pystr) :
  Forall (fun x => x <> [] /\ Forall solid x) (split s).
Proof. apply split_acc_words. constructor. Qed.

End Strings.

(** ** Session titles *)

Section Titles.
Import Store DatabaseManager ConversationManager.

(** A handler for [Exception] leaves nothing to propagate. *)
Lemma try_except_all {A} (body : M A) (handler : exn -> M A) (w : world) :
  (forall e w', exists a w'', handler e w' = (Ok a, w'')) ->
  exists a w', try_except body is_Exception handler w = (Ok a, w').
Proof.
  intros Hh. unfold try_except. destruct (body w) as [[a|e] w'].
  - eauto.
  - simpl. apply Hh.
Qed.

Lemma update_session_title_returns (session_id new_title : pystr) (w : world) :
  exists b w', update_session_title session_id new_title w = (Ok b, w').
Proof. apply try_except_all. intros e w'. unfold ret. eauto. Qed.

(** C7. The title returned by [auto_generate_title] is the first six
    words of the message joined by single spaces when that string has
    between 10 and 50 characters; its first 47 characters followed by
    "..." (50 characters in all) when it has more than 50; and
    "Travel Chat - <month>/<day>" when it has fewer than 10. *)
Theorem auto_generate_title_cases
    (session_id first_message : pystr) (now : datetime) (w : world) :
  let joined := join (str " ") (take 6 (split first_message)) in
  exists title w',
    auto_generate_title session_id first_message now w = (Ok title, w')
    /\ ((10 <= length joined <= 50)%nat -> title = joined)
    /\ ((50 < length joined)%nat ->
        title = take 47 joined ++ str "..." /\ length title = 50%nat)
    /\ ((length joined < 10)%nat ->
        title = str "Travel Chat - " ++ pad2 (month now) ++ str "/" ++ pad2 (day now)).
Proof.
  intros joined. unfold auto_generate_title, bind.
  destruct (update_session_title_returns session_id
              (generated_title first_message now) w) as (b & w' & ->).
  eexists _, _. split; [reflexivity|].
  unfold generated_title. fold joined.
  destruct (50 <? length joined)%nat eqn:E50;
    [apply Nat.ltb_lt in E50 | apply Nat.ltb_ge in E50].
  - split; [lia|]. split; [|lia]. intros _. split; [reflexivity|].
    rewrite length_app, length_take. change (length (str "...")) with 3%nat. lia.
  - destruct (length joined <? 10)%nat eqn:E10;
      [apply Nat.ltb_lt in E10 | apply Nat.ltb_ge in E10].
    + split; [lia|]. split; [lia|]. intros _. reflexivity.
    + split; [reflexivity|]. split; lia.
Qed.

Lemma auto_generate_title_cases_witness :
  fst (auto_generate_title (str "s1")
         (str "Plan a trip to Kyoto in spring with my family")
         Samples.sample_now Samples.sample_world)
  = Ok (str "Plan a trip to Kyoto in")
  /\ fst (auto_generate_title (str "s1") (str "Hi")
            Samples.sample_now Samples.sample_world)
     = Ok (str "Travel Chat - 03/09")
  /\ fst (auto_generate_title (str "s1")
            (str "Please recommend extraordinarily breathtaking international destinations")
            Samples.sample_now Samples.sample_world)
     = Ok (str "Please recommend extraordinarily breathtaking i...").
Proof.
  split; [|split].
  - destruct (auto_generate_title_cases (str "s1")
                (str "Plan a trip to Kyoto in spring with my family")
                Samples.sample_now Samples.sample_world)
      as (title & w' & -> & Hmid & _ & _).
    simpl. f_equal. rewrite Hmid by (vm_compute; lia). vm_compute. reflexivity.
  - destruct (auto_generate_title_cases (str "s1") (str "Hi")
                Samples.sample_now Samples.sample_world)
      as (title & w' & -> & _ & _ & Hshort).
    simpl. f_equal. rewrite Hshort by (vm_compute; lia). vm_compute. reflexivity.
  - destruct (auto_generate_title_cases (str "s1")
                (str "Please recommend extraordinarily breathtaking international destinations")
                Samples.sample_now Samples.sample_world)
      as (title & w' & -> & _ & Hlong & _).
    simpl. f_equal. destruct Hlong as [-> _]; [vm_compute; lia|].
    vm_compute. reflexivity.
Defined.

End Titles.
(** ** Completion client *)

Section CompletionClient.
Import GroqClient.

(** Whatever the [try] block does, [get_response] hands back a result. *)
Lemma get_response_catches self post messages temperature max_tokens :
  get_response self post messages temperature max_tokens
  = match get_response_body self post messages temperature max_tokens with
    | Ok r => Ok r
    | Raise _ => Ok None
    end.
Proof.
  unfold get_response.
  destruct (get_response_body _ _ _ _ _) as [r|e]; [reflexivity|].
  destruct (is_RequestException e), (is_JSONDecodeError e); reflexivity.
Qed.

(** C2. On status 200 with a JSON body whose [choices] array is not
    empty, [get_response] returns the content of the first choice's
    message, stripped of leading and trailing whitespace.  On any other
    status, on a body that is not JSON or has no (or an empty) [choices],
    and on a transport error, it returns [None].  In no case does an
    exception reach the caller. *)
Theorem get_response_outcomes
    (self : client) (post : endpoint) (messages : list pydict)
    (temperature : Q) (max_tokens : Z) :
  let sent := send self post messages temperature max_tokens in
  let got := get_response self post messages temperature max_tokens in
  (forall resp body choice rest message content,
      sent = Ok resp -> status_code resp = 200 ->
      json resp = Ok (VDict body) ->
      body !! str "choices" = Some (VList (VDict choice :: rest)) ->
      choice !! str "message" = Some (VDict message) ->
      message !! str "content" = Some (VStr content) ->
      got = Ok (Some (strip content)))
  /\ (forall resp, sent = Ok resp -> status_code resp <> 200 -> got = Ok None)
  /\ (forall resp e, sent = Ok resp -> json resp = Raise e -> got = Ok None)
  /\ (forall resp body, sent = Ok resp -> json resp = Ok (VDict body) ->
        body !! str "choices" = None \/ body !! str "choices" = Some (VList []) ->
        got = Ok None)
  /\ (forall e, sent = Raise e -> got = Ok None)
  /\ (exists r, got = Ok r).
Proof.
  intros sent got. subst got. rewrite get_response_catches.
  unfold get_response_body. fold sent.
  repeat split.
  - intros resp body choice rest message content -> H200 Hjson Hch Hmsg Hcont.
    simpl. apply Z.eqb_eq in H200. rewrite H200, Hjson. simpl.
    unfold dict_item. rewrite Hch. simpl.
    unfold dict_item. rewrite Hmsg. simpl.
    unfold dict_item. rewrite Hcont. reflexivity.
  - intros resp -> Hne. simpl. apply Z.eqb_neq in Hne. rewrite Hne. reflexivity.
  - intros resp e -> Hjson. simpl. rewrite Hjson.
    destruct (status_code resp =? 200); reflexivity.
  - intros resp body -> Hjson Hch. simpl. rewrite Hjson.
    destruct (status_code resp =? 200); [|reflexivity]. simpl.
    destruct Hch as [Hch | Hch]; unfold dict_item; rewrite Hch; reflexivity.
  - intros e ->. reflexivity.
  - destruct (pbind sent _); eauto.
Qed.

Lemma get_response_outcomes_witness :
  get_response Samples.sample_client Samples.network_ok [] (7 # 10) 1024
  = Ok (Some (str "Paris is lovely"))
  /\ get_response Samples.sample_client Samples.network_500 [] (7 # 10) 1024
     = Ok None
  /\ get_response Samples.sample_client Samples.network_down [] (7 # 10) 1024
     = Ok None.
Proof.
  split; [|split].
  - destruct (get_response_outcomes Samples.sample_client Samples.network_ok
                [] (7 # 10) 1024) as (Hok & _).
    erewrite Hok; [| reflexivity | reflexivity | reflexivity
                    | vm_compute; reflexivity | vm_compute; reflexivity
                    | vm_compute; reflexivity ].
    vm_compute. reflexivity.
  - destruct (get_response_outcomes Samples.sample_client Samples.network_500
                [] (7 # 10) 1024) as (_ & Hstatus & _).
    eapply Hstatus; [reflexivity | simpl; lia].
  - destruct (get_response_outcomes Samples.sample_client Samples.network_down
                [] (7 # 10) 1024) as (_ & _ & _ & _ & Hdown & _).
    eapply Hdown. reflexivity.
Defined.

End CompletionClient.
(** ** Session authentication *)

Section Authentication.
Import AuthManager.

Lemma auth_keys_differ : k_auth_time <> k_authenticated.
Proof. vm_compute. discriminate. Qed.

(** The session state that a successful [login] leaves behind. *)
Lemma login_state (self : manager) (st : session_state) (password : pystr)
    (T0 : Q) (st1 : session_state) :
  login self st password T0 = (true, st1) ->
  st1 !! k_authenticated = Some (VBool true)
  /\ st1 !! k_auth_time = Some (VFloat T0).
Proof.
  unfold login. destruct (verify_password self password); [|discriminate].
  intros H. inversion H; subst st1. split.
  - rewrite lookup_insert_ne by apply auth_keys_differ. apply lookup_insert_eq.
  - apply lookup_insert_eq.
Qed.

(** The session state after [logout]: the flag is false, the stamp is gone. *)
Lemma logout_state (st : session_state) :
  logout st !! k_authenticated = Some (VBool false)
  /\ logout st !! k_auth_time = None.
Proof.
  unfold logout. case_bool_decide as Hin.
  - split.
    + rewrite lookup_delete_ne by apply auth_keys_differ. apply lookup_insert_eq.
    + apply lookup_delete_eq.
  - split.
    + apply lookup_insert_eq.
    + apply eq_None_not_Some. exact Hin.
Qed.

(** Without a stamp, a check answers false and changes nothing. *)
Lemma is_authenticated_no_stamp (self : manager) (st : session_state) (now : Q) :
  st !! k_auth_time = None ->
  is_authenticated self st now = Ok (VBool false, st).
Proof.
  intros H. unfold is_authenticated. rewrite H.
  destruct (st !! k_authenticated); reflexivity.
Qed.




End Authentication.
(** ** The primary store *)

Import Store DatabaseManager ConversationManager.

Create HintDb world.
Create Rewrite HintDb world.

(** *** Worlds without faults *)

Lemma healthy_next (w : world) : healthy w -> next_fault w = None.
Proof.
  unfold healthy, next_fault. destruct (plan w) as [|[e|] p]; try reflexivity.
  intros H. inversion H; discriminate.
Qed.

Lemma healthy_consume (w : world) : healthy w -> healthy (consume w).
Proof.
  unfold healthy, consume. simpl. destruct (plan w); simpl; [auto|].
  intros H. inversion H; assumption.
Qed.

Lemma healthy_with_pending (w : world) (p : option db) :
  healthy w -> healthy (with_pending w p).
Proof. exact id. Qed.

Lemma healthy_with_store (w : world) (d : db) :
  healthy w -> healthy (with_store w d).
Proof. exact id. Qed.

Lemma healthy_same_plan (w w' : world) :
  plan w' = plan w -> healthy w -> healthy w'.
Proof. unfold healthy. intros ->. exact id. Qed.

#[global] Hint Resolve healthy_consume healthy_with_pending healthy_with_store : world.

(** Unfolding an operation down to the calls to the driver. *)
Ltac unfold_ops :=
  unfold get_user_data, update_user_preferences, save_conversation,
    clear_user_conversations, get_conversation_count, get_user_analytics,
    get_user_data_body, update_user_preferences_body, save_conversation_body,
    clear_user_conversations_body, get_conversation_count_body,
    get_user_analytics_body, create_new_session, create_new_session_body,
    update_session_title, update_session_title_body,
    get_connection, connect, execute_update,
    execute_query, commit, cursor_close, conn_close,
    try_except, bind, ret, driver_call in *.

(** Reading a field of a world that was just updated. *)
Lemma store_with_pending w p : store (with_pending w p) = store w.
Proof. reflexivity. Qed.
Lemma store_with_store w d : store (with_store w d) = d.
Proof. reflexivity. Qed.
Lemma store_consume w : store (consume w) = store w.
Proof. reflexivity. Qed.
Lemma pending_with_pending w p : pending (with_pending w p) = p.
Proof. reflexivity. Qed.
Lemma pending_with_store w d : pending (with_store w d) = pending w.
Proof. reflexivity. Qed.
Lemma pending_consume w : pending (consume w) = pending w.
Proof. reflexivity. Qed.
Lemma clock_with_pending w p : clock (with_pending w p) = clock w.
Proof. reflexivity. Qed.
Lemma clock_with_store w d : clock (with_store w d) = clock w.
Proof. reflexivity. Qed.
Lemma clock_consume w : clock (consume w) = clock w.
Proof. reflexivity. Qed.
Lemma plan_with_pending w p : plan (with_pending w p) = plan w.
Proof. reflexivity. Qed.
Lemma plan_with_store w d : plan (with_store w d) = plan w.
Proof. reflexivity. Qed.
Lemma plan_consume w : plan (consume w) = tail (plan w).
Proof. reflexivity. Qed.

Lemma driver_error_is_caught e : is_psycopg2_Error (Psycopg2Error e) = true.
Proof. reflexivity. Qed.

#[global] Hint Rewrite driver_error_is_caught store_with_pending store_with_store store_consume
  pending_with_pending pending_with_store pending_consume
  clock_with_pending clock_with_store clock_consume
  plan_with_pending plan_with_store plan_consume : world.

(** Reduction of the world bookkeeping only: the statements, the
    dictionaries and the strings are left as they are. *)
Ltac wsimpl :=
  repeat (progress
            (cbv beta iota delta
               [fst snd is_OperationalError is_Exception json_dumps];
             autorewrite with world)).

(** Running the calls of an operation in a world without faults. *)
Ltac run_healthy :=
  repeat (rewrite healthy_next by eauto 20 with world; wsimpl).

(** Running them in any world: each call fails or succeeds. *)
Ltac run_cases :=
  repeat (wsimpl;
          match goal with
          | |- context [next_fault ?w] =>
            let e := fresh "e" in destruct (next_fault w) as [e|] eqn:?
          | |- context [match ?e with OperationalError => _ | _ => _ end] =>
            is_var e; destruct e
          | |- context [if is_psycopg2_Error ?e then _ else _] =>
            is_var e; destruct e; cbv beta iota delta [is_psycopg2_Error]
          | |- context [match ?s with Ok _ => _ | Raise _ => _ end] =>
            destruct s eqn:?
          end).

(** *** The statements *)



(** *** [clear_user_conversations] *)



(** *** [get_user_data] *)


#[global] Instance newer_first_total : Total newer_first.
Proof. intros r1 r2. unfold newer_first. lia. Qed.

#[global] Instance newer_first_trans : Transitive newer_first.
Proof. intros r1 r2 r3. unfold newer_first. lia. Qed.


(** *** [update_user_preferences] *)




(** In a world without faults the update succeeds for every identifier
    that fits the [user_id] column. *)
Lemma update_user_preferences_healthy (u : pystr) (P : pyval) (w : world) :
  healthy w -> (length u <= 255)%nat ->
  exists w1, update_user_preferences u P w = (Ok (VBool true), w1)
             /\ plan w1 = tail (tail (tail (tail (tail (plan w))))).
Proof.
  intros H Hlen. unfold_ops. run_healthy.
  unfold upsert_user_preferences, too_long.
  destruct (255 <? length u)%nat eqn:E; [apply Nat.ltb_lt in E; lia|].
  run_healthy. eexists. split; reflexivity.
Qed.

(** *** Failures of the store *)










(** *** Witnesses on the sample store *)






(** ** Conversation sessions *)

Lemma length_hex (k : nat) (x : N) : length (hex k x) = k.
Proof.
  revert x. induction k as [|k IH]; intros x; simpl; [reflexivity|].
  rewrite length_app, IH. simpl. lia.
Qed.

(** A UUID prints as 36 characters. *)
Lemma length_uuid4_str (entropy : N) : length (uuid4_str entropy) = 36%nat.
Proof.
  unfold uuid4_str. pose proof (length_hex 32 (uuid4_int entropy)) as H.
  repeat rewrite ?length_app, ?length_take, ?length_drop, ?H.
  reflexivity.
Qed.

(** C10. [create_new_session] returns the identifier it has just
    generated in every world.  When the connection cannot be opened, and
    when the insert raises, nothing is stored, and the caller gets the
    same identifier as after a successful insert. *)
Theorem create_new_session_always_returns_id
    (user_id : pystr) (title : option pystr) (entropy : N) (now : datetime)
    (w : world) :
  let session_id := uuid4_str entropy in
  let stored_title :=
    match title with
    | None => str "Travel Chat - " ++ strftime_mdHM now
    | Some t => t
    end in
  exists w',
    create_new_session user_id title entropy now w = (Ok session_id, w')
    /\ length session_id = 36%nat
    /\ (forall e p, plan w = Some e :: p -> store w' = store w)
    /\ (forall e, insert_session session_id user_id stored_title (clock w) (store w)
                  = Raise e -> store w' = store w)
    /\ (healthy w ->
        forall d, insert_session session_id user_id stored_title (clock w) (store w)
                  = Ok d -> store w' = d).
Proof.
  intros session_id stored_title.
  unfold_ops. fold session_id. fold stored_title.
  run_cases;
    (eexists; split; [reflexivity|]; split; [apply length_uuid4_str|];
     autorewrite with world;
     split; [|split];
     [ intros e' p Hplan; try reflexivity;
       unfold next_fault in *; rewrite Hplan in *; discriminate
     | intros e' Hins; try reflexivity; congruence
     | intros Hh d Hins; try congruence;
       repeat match goal with
              | H : next_fault ?x = Some _ |- _ =>
                rewrite healthy_next in H by eauto 20 with world; discriminate H
              end ]).
Qed.

Lemma create_new_session_always_returns_id_witness :
  let known := create_new_session Samples.sample_user None 7 Samples.sample_now
                 Samples.sample_world in
  let unknown := create_new_session (str "nobody") None 7 Samples.sample_now
                   Samples.sample_world in
  let down := create_new_session Samples.sample_user None 7 Samples.sample_now
                Samples.world_down in
  fst known = Ok (uuid4_str 7)
  /\ fst unknown = Ok (uuid4_str 7)
  /\ fst down = Ok (uuid4_str 7)
  /\ store (snd unknown) = Samples.sample_db
  /\ store (snd down) = Samples.sample_db.
Proof.
  intros known unknown down.
  destruct (create_new_session_always_returns_id Samples.sample_user None 7
              Samples.sample_now Samples.sample_world) as (w1 & E1 & _).
  destruct (create_new_session_always_returns_id (str "nobody") None 7
              Samples.sample_now Samples.sample_world) as (w2 & E2 & _ & _ & Hins & _).
  destruct (create_new_session_always_returns_id Samples.sample_user None 7
              Samples.sample_now Samples.world_down) as (w3 & E3 & _ & Hdown & _).
  subst known unknown down. rewrite E1, E2, E3. simpl.
  repeat split.
  - apply (Hins (Psycopg2Error IntegrityError)). vm_compute. reflexivity.
  - apply (Hdown OperationalError []). reflexivity.
Defined.

(* ===================================================================== *)
(** * Part III.  Further properties of the code                           *)
(* ===================================================================== *)

(** ** travel_prompts.py *)

Section MorePromptAssembly.
Import TravelPrompts.

(** X1. [build_context] raises exactly when one of the last four history
    entries has role "user" or "assistant" and no "content" key, and what
    it raises is [KeyError('content')]. *)
Theorem build_context_key_error
    (prefs : option preferences) (history : option (list pydict))
    (query : pystr) (now : datetime) :
  (forall e, build_context prefs history query now = Raise e ->
             e = KeyError (str "content"))
  /\ ((exists e, build_context prefs history query now = Raise e)
      <-> Exists (fun m => role_is_chat m = true /\ m !! str "content" = None)
            (window history)).
Proof.
  rewrite build_context_unfold.
  destruct (append_history _ (window history)) as [msgs|e] eqn:E; simpl.
  - split; [intros e He; discriminate He|]. split; [intros [e He]; discriminate He|].
    intros Hex. exfalso.
    pose proof (append_history_returns _ _ _ E) as Hall.
    rewrite Forall_forall in Hall. apply Exists_exists in Hex as (m & Hin & Hrole & Hnone).
    destruct (Hall m Hin Hrole) as [c Hc]. congruence.
  - destruct (append_history_raises _ _ _ E) as [-> Hex].
    split; [intros e' He'; inversion He'; reflexivity|].
    split; [intros _ | eauto].
    apply Exists_exists in Hex as (m & Hin & Hbad). apply Exists_exists.
    exists m. split; [exact Hin|].
    destruct (role_is_chat m) eqn:Hrole.
    + split; [reflexivity|]. destruct (m !! str "content") eqn:Hc; [|reflexivity].
      exfalso. apply Hbad. intros _. eauto.
    + exfalso. apply Hbad. intros Habs. congruence.
Qed.

Lemma build_context_key_error_witness :
  build_context None (Some [<[str "role" := VStr (str "user")]> ∅]) (str "q")
    Samples.sample_now
  = Raise (KeyError (str "content")).
Proof.
  destruct (build_context_key_error None
              (Some [<[str "role" := VStr (str "user")]> ∅]) (str "q")
              Samples.sample_now) as [Hkey [_ Hraises]].
  destruct Hraises as [e He].
  { left. split; vm_compute; reflexivity. }
  rewrite He. f_equal. apply Hkey. exact He.
Defined.

(** X2. When none of the last four history entries has role "user" or
    "assistant" (in particular when there is no history, or an empty one),
    the context is exactly the system message followed by the query. *)
Theorem build_context_without_turns
    (prefs : option preferences) (history : option (list pydict))
    (query : pystr) (now : datetime) :
  Forall (fun m => role_is_chat m = false) (window history) ->
  build_context prefs history query now
  = Ok [make_message (VStr (str "system")) (VStr (_get_system_prompt prefs now));
        make_message (VStr (str "user")) (VStr query)].
Proof.
  intros Hnone. rewrite build_context_unfold.
  rewrite append_history_ok.
  - replace (filter _ (window history)) with (@nil pydict); [reflexivity|].
    symmetry. induction Hnone as [|m l Hm _ IH]; [reflexivity|].
    rewrite filter_cons, decide_False by congruence. exact IH.
  - eapply Forall_impl; [exact Hnone|]. intros m Hm Hrole. congruence.
Qed.

Lemma build_context_without_turns_witness :
  build_context None None (str "Hi") Samples.sample_now
  = Ok [make_message (VStr (str "system")) (VStr (_get_system_prompt None Samples.sample_now));
        make_message (VStr (str "user")) (VStr (str "Hi"))]
  /\ build_context None (Some [Samples.msg "tool" "x"; ∅]) (str "Hi")
       Samples.sample_now
     = build_context None None (str "Hi") Samples.sample_now.
Proof.
  split.
  - apply (build_context_without_turns None None). constructor.
  - rewrite (build_context_without_turns None (Some [Samples.msg "tool" "x"; ∅])).
    + reflexivity.
    + repeat constructor.
Defined.

(** X3. Only the last four entries of the history count: whatever comes
    before them leaves the context unchanged. *)
Theorem build_context_forgets_older_turns
    (prefs : option preferences) (older recent : list pydict)
    (query : pystr) (now : datetime) :
  length recent = 4%nat ->
  build_context prefs (Some (older ++ recent)) query now
  = build_context prefs (Some recent) query now.
Proof.
  intros Hlen. rewrite !build_context_unfold. unfold window. simpl.
  rewrite length_app, Hlen.
  replace (length older + 4 - 4)%nat with (length older) by lia.
  rewrite drop_app_length. reflexivity.
Qed.

Lemma build_context_forgets_older_turns_witness :
  build_context None (Some Samples.sample_history) (str "q") Samples.sample_now
  = build_context None (Some (drop 2 Samples.sample_history)) (str "q")
      Samples.sample_now.
Proof.
  apply (build_context_forgets_older_turns None (take 2 Samples.sample_history)
           (drop 2 Samples.sample_history)).
  reflexivity.
Defined.

End MorePromptAssembly.

Section MorePrompts.
Import TravelPrompts Suggestions.

(** X4. A climate preference of "No preference" is treated like no
    climate preference at all, as long as the dictionary has another key. *)
Theorem system_prompt_ignores_no_preference
    (budget : option pystr) (styles : option (list pystr))
    (updated : option pystr) (now : datetime) :
  is_Some budget \/ is_Some styles \/ is_Some updated ->
  _get_system_prompt
    (Some {| budget_range := budget; travel_style := styles;
             preferred_climate := Some (str "No preference");
             last_updated := updated |}) now
  = _get_system_prompt
      (Some {| budget_range := budget; travel_style := styles;
               preferred_climate := None; last_updated := updated |}) now.
Proof.
  intros Hkey.
  assert (Hclimate : get_truthy (Some (str "No preference")) = Some (str "No preference"))
    by reflexivity.
  unfold _get_system_prompt, prefs_nonempty.
  cbn [budget_range travel_style preferred_climate last_updated].
  rewrite Hclimate. cbv beta iota.
  rewrite (bool_decide_eq_false_2 (_ <> _)) by (intros H; apply H; reflexivity).
  destruct Hkey as [H | [H | H]];
    rewrite (bool_decide_eq_true_2 _ H);
    rewrite ?orb_true_r; cbn [orb get_truthy]; reflexivity.
Qed.

Lemma system_prompt_ignores_no_preference_witness :
  _get_system_prompt
    (Some {| budget_range := Some (str "Luxury"); travel_style := None;
             preferred_climate := Some (str "No preference");
             last_updated := None |}) Samples.sample_now
  = _get_system_prompt
      (Some {| budget_range := Some (str "Luxury"); travel_style := None;
               preferred_climate := None; last_updated := None |}) Samples.sample_now.
Proof.
  apply (system_prompt_ignores_no_preference (Some (str "Luxury")) None None).
  left. eauto.
Defined.

(** *** [random.sample] on a pool *)

Lemma pool_step {A} (pool : list A) (x : A) (j : nat) :
  (j < length pool)%nat ->
  nth j pool x :: take (length pool - 1) (<[j := nth (length pool - 1) pool x]> pool)
  ≡ₚ pool.
Proof.
  intros Hj.
  set (n := (length pool - 1)%nat). set (z := nth n pool x).
  assert (Hz : pool !! n = Some z).
  { unfold z. destruct (nth_lookup_or_length pool n x) as [H|H]; [exact H|].
    unfold n in H. lia. }
  assert (Hpool : pool = take n pool ++ [z]).
  { rewrite <- (take_S_r _ _ _ Hz). symmetry. apply take_ge. unfold n. lia. }
  destruct (decide (j = n)) as [-> | Hne].
  - rewrite (list_insert_id _ _ _ Hz). fold z.
    rewrite Hpool at 2. apply Permutation_cons_append.
  - assert (Hjn : (j < n)%nat) by (unfold n in *; lia).
    rewrite take_insert_lt by exact Hjn.
    set (front := take n pool) in *.
    assert (Ha : front !! j = Some (nth j pool x)).
    { unfold front. rewrite lookup_take_lt by exact Hjn.
      destruct (nth_lookup_or_length pool j x) as [H|H]; [exact H | lia]. }
    set (a := nth j pool x) in *.
    assert (Hlen : (j < length front)%nat) by (eapply lookup_lt_Some; exact Ha).
    rewrite (insert_take_drop _ _ _ Hlen).
    rewrite Hpool. rewrite <- (take_drop_middle _ _ _ Ha) at 3.
    rewrite <- !Permutation_middle. rewrite app_nil_r. apply perm_swap.
Qed.

Lemma sample_pool_step {A} (x : A) (pool' : list A) (k : nat) (draws : list nat) :
  let pool := x :: pool' in
  let j := (hd 0 draws mod length pool)%nat in
  sample_pool pool (S k) draws
  = nth j pool x
      :: sample_pool (take (length pool - 1) (<[j := nth (length pool - 1) pool x]> pool))
           k (tl draws).
Proof. reflexivity. Qed.

(** What is drawn from a pool, together with what is left, is the pool. *)
Lemma sample_pool_permutation {A} (k : nat) (pool : list A) (draws : list nat) :
  exists rest, sample_pool pool k draws ++ rest ≡ₚ pool.
Proof.
  revert pool draws. induction k as [|k IH]; intros pool draws.
  - exists pool. reflexivity.
  - destruct pool as [|x pool']; [exists []; reflexivity|].
    rewrite sample_pool_step. cbv zeta.
    set (pool := x :: pool') in *.
    set (j := (hd 0 draws mod length pool)%nat).
    assert (Hj : (j < length pool)%nat) by (apply Nat.mod_upper_bound; simpl; lia).
    destruct (IH (take (length pool - 1) (<[j := nth (length pool - 1) pool x]> pool))
                 (tl draws)) as [rest Hrest].
    exists rest. rewrite <- app_comm_cons, Hrest. apply pool_step. exact Hj.
Qed.

Lemma sample_pool_length {A} (k : nat) (pool : list A) (draws : list nat) :
  length (sample_pool pool k draws) = Nat.min k (length pool).
Proof.
  revert pool draws. induction k as [|k IH]; intros pool draws; [reflexivity|].
  destruct pool as [|x pool']; [reflexivity|].
  rewrite sample_pool_step. cbv zeta. cbn [length].
  rewrite IH, length_take, length_insert. cbn [length]. lia.
Qed.

End MorePrompts.

Section MoreSuggestions.
Import TravelPrompts Suggestions.

Lemma candidate_starters_shape (prefs : option preferences) :
  exists a b c : bool,
    candidate_starters prefs
    = base_starters
        ++ (if a then [str "Find me the best adventure destinations"] else [])
        ++ (if b then [str "Recommend cultural experiences and festivals"] else [])
        ++ (if c then [str "Show me how to travel on a tight budget"] else []).
Proof.
  unfold candidate_starters.
  destruct prefs as [p|]; [|exists false, false, false; reflexivity].
  destruct (prefs_nonempty p); [|exists false, false, false; reflexivity].
  destruct (get_truthy (travel_style p)) as [styles|].
  - destruct (bool_decide (str "Adventure" ∈ styles)),
      (bool_decide (str "Culture" ∈ styles)),
      (bool_decide (budget_range p = Some (str "Budget")));
      [ exists true, true, true | exists true, true, false
      | exists true, false, true | exists true, false, false
      | exists false, true, true | exists false, true, false
      | exists false, false, true | exists false, false, false ];
      cbv iota; rewrite <- ?app_assoc; rewrite ?app_nil_r; reflexivity.
  - destruct (bool_decide (budget_range p = Some (str "Budget")));
      [exists false, false, true | exists false, false, false]; reflexivity.
Qed.

Lemma candidate_starters_distinct (prefs : option preferences) :
  NoDup (candidate_starters prefs) /\ (8 <= length (candidate_starters prefs))%nat.
Proof.
  destruct (candidate_starters_shape prefs) as (a & b & c & ->).
  destruct a, b, c;
    (split; [refine (bool_decide_unpack _ _); vm_compute; exact I
            | vm_compute; lia]).
Qed.

(** X5. [get_conversation_starters] always offers exactly six
    suggestions, all different, each taken from the list of starters
    (the eight fixed ones and those added for the preferences). *)
Theorem conversation_starters_six
    (prefs : option preferences) (draws : list nat) :
  let offered := get_conversation_starters prefs draws in
  length offered = 6%nat
  /\ NoDup offered
  /\ (forall s, s ∈ offered -> s ∈ candidate_starters prefs).
Proof.
  intros offered. subst offered. unfold get_conversation_starters.
  destruct (candidate_starters_distinct prefs) as [Hnodup Hlen].
  set (starters := candidate_starters prefs) in *.
  destruct (sample_pool_permutation (Nat.min 6 (length starters)) starters draws)
    as [rest Hperm].
  split; [rewrite sample_pool_length; lia|]. split.
  - rewrite <- Hperm in Hnodup. apply NoDup_app in Hnodup as [H _]. exact H.
  - intros s Hs. rewrite <- Hperm. apply elem_of_app. left. exact Hs.
Qed.

Lemma choice_in {A} (d : A) (seq : list A) (draw : nat) :
  seq <> [] -> choice d seq draw ∈ seq.
Proof.
  intros Hne. unfold choice. apply list_elem_of_In, nth_In.
  apply Nat.mod_upper_bound. destruct seq; [congruence | simpl; lia].
Qed.

(** X6. The welcome message is one of the four greetings, followed by a
    sentence about the preferences exactly when some preference value is
    set, followed by one of the five tips. *)
Theorem welcome_message_parts
    (prefs : option preferences) (draw1 draw2 : nat) :
  exists greeting tip,
    greeting ∈ welcome_messages /\ tip ∈ quick_tips
    /\ get_welcome_message prefs draw1 draw2
       = greeting
         ++ match prefs with
            | Some p =>
              if any_value p
              then str "

🎯 I notice you prefer " ++ _format_preferences p
                   ++ str ". I'll keep that in mind for our conversation!"
              else []
            | None => []
            end
         ++ str "

" ++ tip.
Proof.
  exists (choice [] welcome_messages draw1), (choice [] quick_tips draw2).
  split; [apply choice_in; discriminate|].
  split; [apply choice_in; discriminate|].
  unfold get_welcome_message. destruct prefs as [p|]; [|reflexivity].
  assert (Hany : any_value p = true -> prefs_nonempty p = true).
  { unfold any_value, prefs_nonempty, get_truthy.
    destruct (budget_range p) as [[|? ?]|], (travel_style p) as [[|? ?]|],
      (preferred_climate p) as [[|? ?]|], (last_updated p) as [[|? ?]|];
      intros H; try reflexivity; try discriminate H. }
  destruct (any_value p) eqn:E.
  - rewrite (Hany eq_refl). simpl andb. cbv iota. rewrite <- !app_assoc. reflexivity.
  - rewrite andb_false_r. reflexivity.
Qed.

End MoreSuggestions.

(** ** groq_client.py *)

Section MoreCompletionClient.
Import TravelPrompts GroqClient TravelClient.

Lemma lstrip_blank (s : pystr) : Forall blank s -> lstrip s = [].
Proof.
  induction 1 as [|c r Hc _ IH]; [reflexivity|]. simpl. rewrite Hc. exact IH.
Qed.

Lemma get_response_on_choice
    (self : client) (post : endpoint) (messages : list pydict)
    (temperature : Q) (max_tokens : Z)
    (resp : response) (body : pydict) (choice : pyval) (rest : list pyval) :
  send self post messages temperature max_tokens = Ok resp ->
  status_code resp = 200 ->
  json resp = Ok (VDict body) ->
  body !! str "choices" = Some (VList (choice :: rest)) ->
  get_response self post messages temperature max_tokens
  = Ok (strip <$> first_content choice).
Proof.
  intros Hsend H200 Hjson Hch. rewrite get_response_catches.
  unfold get_response_body. rewrite Hsend. simpl.
  apply Z.eqb_eq in H200. rewrite H200, Hjson. simpl.
  unfold dict_item. rewrite Hch. simpl.
  unfold first_content, py_item, dict_item.
  destruct choice as [| | | | |l|c]; try reflexivity.
  destruct (c !! str "message") as [[| | | | |l|m]|]; try reflexivity. simpl.
  destruct (m !! str "content") as [[| | | | s |l|m']|]; reflexivity.
Qed.

Lemma get_response_on_failure
    (self : client) (post : endpoint) (messages : list pydict)
    (temperature : Q) (max_tokens : Z) :
  (forall e, send self post messages temperature max_tokens = Raise e ->
     get_response self post messages temperature max_tokens = Ok None)
  /\ (forall resp, send self post messages temperature max_tokens = Ok resp ->
       status_code resp <> 200 ->
       get_response self post messages temperature max_tokens = Ok None).
Proof.
  rewrite get_response_catches. unfold get_response_body. split.
  - intros e ->. reflexivity.
  - intros resp -> Hne. simpl. apply Z.eqb_neq in Hne. rewrite Hne. reflexivity.
Qed.

(** X7. On status 200 with a JSON object whose [choices] list is not
    empty, [get_response] returns the stripped content of the first
    choice when that choice has the shape [{"message": {"content":
    <str>}}], and [None] for every other shape of the first choice. *)
Theorem get_response_first_choice
    (self : client) (post : endpoint) (messages : list pydict)
    (temperature : Q) (max_tokens : Z)
    (resp : response) (body : pydict) (choice : pyval) (rest : list pyval) :
  send self post messages temperature max_tokens = Ok resp ->
  status_code resp = 200 ->
  json resp = Ok (VDict body) ->
  body !! str "choices" = Some (VList (choice :: rest)) ->
  get_response self post messages temperature max_tokens
  = Ok (strip <$> first_content choice).
Proof. apply get_response_on_choice. Qed.

Lemma get_response_first_choice_witness :
  let broken : endpoint := fun _ _ _ _ =>
    Ok {| status_code := 200; text := [];
          json := Ok (VDict (<[str "choices" := VList [VDict ∅]]> ∅)) |} in
  let blank_reply : endpoint := fun _ _ _ _ =>
    Ok {| status_code := 200; text := [];
          json := Ok (Samples.completion_body "  ") |} in
  get_response Samples.sample_client broken [] (7 # 10) 1024 = Ok None
  /\ get_response Samples.sample_client blank_reply [] (7 # 10) 1024 = Ok (Some []).
Proof.
  intros broken blank_reply. split.
  - erewrite (get_response_first_choice Samples.sample_client broken);
      [| reflexivity | reflexivity | reflexivity | vm_compute; reflexivity ].
    vm_compute. reflexivity.
  - erewrite (get_response_first_choice Samples.sample_client blank_reply);
      [| reflexivity | reflexivity | reflexivity | vm_compute; reflexivity ].
    vm_compute. reflexivity.
Defined.

(** X8. A completion made of whitespace only comes back as the empty
    string, not as [None]. *)
Theorem get_response_blank_completion
    (self : client) (post : endpoint) (messages : list pydict)
    (temperature : Q) (max_tokens : Z)
    (resp : response) (body : pydict) (choice : pyval) (rest : list pyval)
    (content : pystr) :
  send self post messages temperature max_tokens = Ok resp ->
  status_code resp = 200 ->
  json resp = Ok (VDict body) ->
  body !! str "choices" = Some (VList (choice :: rest)) ->
  first_content choice = Some content ->
  Forall blank content ->
  get_response self post messages temperature max_tokens = Ok (Some []).
Proof.
  intros Hsend H200 Hjson Hch Hcontent Hblank.
  rewrite (get_response_on_choice _ _ _ _ _ _ _ _ _ Hsend H200 Hjson Hch).
  rewrite Hcontent. simpl. unfold strip. rewrite (lstrip_blank _ Hblank).
  reflexivity.
Qed.

Lemma get_response_blank_completion_witness :
  let blank_reply : endpoint := fun _ _ _ _ =>
    Ok {| status_code := 200; text := [];
          json := Ok (Samples.completion_body " ") |} in
  get_response Samples.sample_client blank_reply [] (7 # 10) 1024 = Ok (Some []).
Proof.
  intros blank_reply.
  eapply (get_response_blank_completion Samples.sample_client blank_reply);
    [ reflexivity | reflexivity | reflexivity | vm_compute; reflexivity
    | vm_compute; reflexivity | repeat constructor ].
Defined.

(** X9. [validate_api_key] never raises.  It answers [False] when the
    request fails or the status is not 200, and on a 200 answer with a
    non-empty [choices] list it answers [True] exactly when the first
    choice carries a content string, be it blank. *)
Theorem validate_api_key_outcomes (self : client) (post : endpoint) :
  let sent := send self post
                [make_message (VStr (str "user")) (VStr (str "Hello"))] (7 # 10) 10 in
  (exists b, validate_api_key self post = Ok b)
  /\ (forall e, sent = Raise e -> validate_api_key self post = Ok false)
  /\ (forall resp, sent = Ok resp -> status_code resp <> 200 ->
        validate_api_key self post = Ok false)
  /\ (forall resp body choice rest,
        sent = Ok resp -> status_code resp = 200 ->
        json resp = Ok (VDict body) ->
        body !! str "choices" = Some (VList (choice :: rest)) ->
        validate_api_key self post = Ok (bool_decide (is_Some (first_content choice)))).
Proof.
  intros sent. unfold validate_api_key.
  destruct (get_response_on_failure self post
              [make_message (VStr (str "user")) (VStr (str "Hello"))] (7 # 10) 10)
    as (Hdown & Hstatus).
  fold sent in Hstatus, Hdown.
  split; [|split; [|split]].
  - rewrite get_response_catches. destruct (get_response_body _ _ _ _ _); eauto.
  - intros e He. rewrite (Hdown e He). reflexivity.
  - intros resp Hs Hne. rewrite (Hstatus resp Hs Hne). reflexivity.
  - intros resp body choice rest Hs H200 Hjson Hch.
    rewrite (get_response_on_choice _ _ _ _ _ _ _ _ _ Hs H200 Hjson Hch).
    destruct (first_content choice); reflexivity.
Qed.

Lemma validate_api_key_outcomes_witness :
  validate_api_key Samples.sample_client Samples.network_ok = Ok true
  /\ validate_api_key Samples.sample_client Samples.network_500 = Ok false
  /\ validate_api_key Samples.sample_client Samples.network_down = Ok false.
Proof.
  split; [|split].
  - destruct (validate_api_key_outcomes Samples.sample_client Samples.network_ok)
      as (_ & _ & _ & Hok).
    erewrite Hok; [| reflexivity | reflexivity | reflexivity | vm_compute; reflexivity ].
    vm_compute. reflexivity.
  - destruct (validate_api_key_outcomes Samples.sample_client Samples.network_500)
      as (_ & _ & Hstatus & _).
    eapply Hstatus; [reflexivity | simpl; lia].
  - destruct (validate_api_key_outcomes Samples.sample_client Samples.network_down)
      as (_ & Hdown & _).
    eapply Hdown. reflexivity.
Defined.

(** X10. The client cannot be built without a key: [__init__] raises
    [ValueError] exactly when the key is absent or empty, and otherwise
    the authorization header is "Bearer " followed by the key. *)
Theorem client_requires_key (env_key : option pystr) :
  (init env_key = Raise ValueError <-> env_key = None \/ env_key = Some [])
  /\ (forall key, env_key = Some key -> key <> [] ->
        exists self, init env_key = Ok self
          /\ api_key self = key
          /\ headers self = [(str "Authorization", str "Bearer " ++ key);
                             (str "Content-Type", str "application/json")]).
Proof.
  split.
  - destruct env_key as [[|c k]|]; simpl; split; intros H;
      try reflexivity; try discriminate H; auto.
    destruct H as [H|H]; discriminate H.
  - intros key -> Hne. destruct key as [|c k]; [congruence|].
    eexists. split; [reflexivity|]. split; reflexivity.
Qed.

Lemma client_requires_key_witness :
  exists self, init (Some (str "gsk_test")) = Ok self
               /\ headers self = headers Samples.sample_client.
Proof.
  destruct (client_requires_key (Some (str "gsk_test"))) as [_ Hok].
  destruct (Hok (str "gsk_test") eq_refl) as (self & E & _ & Hh);
    [vm_compute; discriminate|].
  exists self. split; [exact E|]. rewrite Hh. vm_compute. reflexivity.
Defined.

End MoreCompletionClient.

(** ** auth.py *)

Section MoreAuthentication.
Import AuthManager.

(** X11. A refresh slides the expiry: when the session is still valid at
    the time of the refresh, it stays valid for 3600 seconds counted from
    the new stamp, however long ago the login was. *)
Theorem refresh_slides_expiry
    (env_password : option pystr) (st st1 : session_state)
    (password : pystr) (T0 t t' : Q) :
  let self := init env_password in
  login self st password T0 = (true, st1) ->
  (t - T0 <= 3600)%Q ->
  exists st2,
    refresh_session self st1 t t' = Ok st2
    /\ forall u, (u - t' <= 3600)%Q -> is_authenticated self st2 u = Ok (VBool true, st2).
Proof.
  intros self Hlogin Hle.
  destruct (login_state _ _ _ _ _ Hlogin) as [Hflag Hstamp].
  exists (<[k_auth_time := VFloat t']> st1). split.
  - unfold refresh_session, is_authenticated. rewrite Hflag, Hstamp. simpl.
    apply Qle_bool_iff in Hle. rewrite Hle. reflexivity.
  - intros u Hu. unfold is_authenticated.
    rewrite lookup_insert_ne by apply auth_keys_differ.
    rewrite Hflag, lookup_insert_eq. simpl.
    apply Qle_bool_iff in Hu. rewrite Hu. reflexivity.
Qed.

Lemma refresh_slides_expiry_witness :
  let st1 : session_state :=
    <[k_auth_time := VFloat 1000]> (<[k_authenticated := VBool true]> ∅) in
  exists st2,
    refresh_session (init None) st1 4000 4000 = Ok st2
    /\ is_authenticated (init None) st2 7000 = Ok (VBool true, st2).
Proof.
  intros st1.
  destruct (refresh_slides_expiry None ∅ st1 (str "travel2024!") 1000 4000 4000)
    as (st2 & Href & Hvalid); [reflexivity | vm_compute; discriminate |].
  exists st2. split; [exact Href|]. apply Hvalid. vm_compute. discriminate.
Defined.




(** X13. The authentication functions touch no key of the session
    state other than "authenticated" and "auth_time". *)
Theorem authentication_frame
    (self : manager) (st : session_state) (password : pystr) (now : Q) (k : pystr) :
  k <> k_authenticated -> k <> k_auth_time ->
  snd (login self st password now) !! k = st !! k
  /\ logout st !! k = st !! k
  /\ (forall v st', is_authenticated self st now = Ok (v, st') -> st' !! k = st !! k).
Proof.
  intros Hk1 Hk2.
  assert (Hlogout : forall s : session_state, logout s !! k = s !! k).
  { intros s. unfold logout. case_bool_decide.
    - rewrite lookup_delete_ne, lookup_insert_ne by congruence. reflexivity.
    - rewrite lookup_insert_ne by congruence. reflexivity. }
  split; [|split; [apply Hlogout|]].
  - unfold login. destruct (verify_password self password); simpl; [|reflexivity].
    rewrite !lookup_insert_ne by congruence. reflexivity.
  - intros v st' H. unfold is_authenticated in H.
    destruct (st !! k_authenticated); [|inversion H; reflexivity].
    destruct (st !! k_auth_time) as [t|]; [|inversion H; reflexivity].
    destruct (elapsed_exceeds now t (session_timeout self)) as [[|]|]; simpl in H;
      inversion H; subst; [apply Hlogout | reflexivity].
Qed.

Lemma authentication_frame_witness :
  let st : session_state := <[str "user_id" := VStr (str "abc")]> ∅ in
  snd (login (init None) st (str "travel2024!") 1000) !! str "user_id"
  = Some (VStr (str "abc"))
  /\ logout st !! str "user_id" = Some (VStr (str "abc")).
Proof.
  intros st.
  destruct (authentication_frame (init None) st (str "travel2024!") 1000 (str "user_id"))
    as (Hlogin & Hlogout & _); [vm_compute; discriminate | vm_compute; discriminate |].
  rewrite Hlogin, Hlogout. split; reflexivity.
Defined.

(** X14. After [logout] no check succeeds, at any time, and a second
    [logout] changes nothing. *)
Theorem logout_ends_session (self : manager) (st : session_state) (now : Q) :
  is_authenticated self (logout st) now = Ok (VBool false, logout st)
  /\ logout (logout st) = logout st.
Proof.
  destruct (logout_state st) as [Hf Hs]. split.
  - apply is_authenticated_no_stamp. exact Hs.
  - unfold logout at 1. rewrite bool_decide_eq_false_2.
    + apply insert_id. exact Hf.
    + rewrite lookup_insert_ne by apply (not_eq_sym auth_keys_differ). rewrite Hs.
      intros [? ?]; discriminate.
Qed.

(** X15. A positive answer of [is_authenticated] leaves the session
    unchanged and is given only when both keys are present and the stamp
    is not older than the timeout. *)
Theorem authenticated_needs_fresh_stamp
    (self : manager) (st st' : session_state) (now : Q) (v : pyval) :
  is_authenticated self st now = Ok (v, st') ->
  truthy v = true ->
  st' = st
  /\ st !! k_authenticated = Some v
  /\ exists stamp, st !! k_auth_time = Some stamp
       /\ elapsed_exceeds now stamp (session_timeout self) = Ok false.
Proof.
  unfold is_authenticated. intros H Hv.
  destruct (st !! k_authenticated) as [a|]; [|inversion H; subst; discriminate Hv].
  destruct (st !! k_auth_time) as [t|]; [|inversion H; subst; discriminate Hv].
  destruct (elapsed_exceeds now t (session_timeout self)) as [[|]|] eqn:E;
    simpl in H; inversion H; subst; try discriminate Hv.
  split; [reflexivity|]. split; [reflexivity|]. eauto.
Qed.

Lemma authenticated_needs_fresh_stamp_witness :
  let st : session_state :=
    <[k_auth_time := VFloat 1000]> (<[k_authenticated := VBool true]> ∅) in
  exists stamp, st !! k_auth_time = Some stamp
    /\ elapsed_exceeds 2000 stamp (session_timeout (init None)) = Ok false.
Proof.
  intros st.
  destruct (authenticated_needs_fresh_stamp (init None) st st 2000 (VBool true))
    as (_ & _ & Hstamp); [reflexivity | reflexivity | exact Hstamp].
Defined.

End MoreAuthentication.

(** ** database.py *)

(** X16. The reading operations never change the committed tables, in
    any world, with or without faults. *)
Theorem reads_leave_store_unchanged (u : pystr) (w : world) :
  store (snd (get_user_data u w)) = store w
  /\ store (snd (get_conversation_count u w)) = store w
  /\ store (snd (get_user_analytics u w)) = store w.
Proof.
  split; [|split]; unfold_ops; run_cases; autorewrite with world; reflexivity.
Qed.

Lemma conversations_of_other (u u' : pystr) (rows : list conv_row) :
  u' <> u ->
  filter (fun r => c_user_id r = u') (filter (fun r => c_user_id r <> u) rows)
  = filter (fun r => c_user_id r = u') rows.
Proof.
  intros Hne. induction rows as [|r rows IH]; [reflexivity|].
  rewrite (filter_cons (fun r => c_user_id r <> u)).
  destruct (decide (c_user_id r <> u)) as [Hr|Hr].
  - rewrite !filter_cons. destruct (decide (c_user_id r = u')); rewrite IH; reflexivity.
  - rewrite filter_cons. rewrite decide_False; [exact IH|].
    intros Heq. apply Hr. congruence.
Qed.

(** X17. [clear_user_conversations] touches nothing but the
    conversations of the user it is given: in any world the users table
    and the conversations of every other user are as before. *)
Theorem clear_spares_everything_else (u u' : pystr) (w : world) :
  u' <> u ->
  let w1 := snd (clear_user_conversations u w) in
  users (store w1) = users (store w)
  /\ conversations_of u' (store w1) = conversations_of u' (store w).
Proof.
  intros Hne w1. subst w1. unfold_ops. unfold delete_conversations.
  run_cases; autorewrite with world; (split; [reflexivity|]); try reflexivity;
    repeat match goal with
           | H : Ok _ = Ok _ |- _ => inversion H; subst; clear H
           | H : Ok _ = Raise _ |- _ => discriminate H
           end;
    unfold conversations_of; simpl; apply conversations_of_other; exact Hne.
Qed.

Lemma clear_spares_everything_else_witness :
  conversations_of Samples.sample_user
    (store (snd (clear_user_conversations (str "someone else") Samples.sample_world)))
  = conversations_of Samples.sample_user Samples.sample_db.
Proof.
  apply (clear_spares_everything_else (str "someone else") Samples.sample_user
           Samples.sample_world).
  vm_compute. discriminate.
Defined.



(** X19. [save_conversation] is all or nothing: in any world the
    committed tables are either as before, or hold both the upserted user
    row and the new conversation. *)
Theorem save_conversation_all_or_nothing (u : pystr) (c : pyval) (w : world) :
  let w1 := snd (save_conversation u c w) in
  store w1 = store w
  \/ exists d1 d2,
       upsert_user_active u (clock w) (store w) = Ok d1
       /\ insert_conversation u c (clock w) d1 = Ok d2
       /\ store w1 = d2.
Proof.
  intros w1. subst w1. unfold_ops.
  run_cases; autorewrite with world; try (left; reflexivity);
    (right; eexists _, _;
     (split; [reflexivity | split; [eassumption | reflexivity]])).
Qed.

(** *** Runs without faults *)















(** ** conversation_manager.py *)

Section MoreSessions.
Import Sessions.

Lemma generated_title_length (first_message : pystr) (now : datetime) :
  (10 <= length (generated_title first_message now) <= 50)%nat.
Proof.
  unfold generated_title.
  set (joined := join (str " ") (take 6 (split first_message))).
  destruct (50 <? length joined)%nat eqn:E50;
    [apply Nat.ltb_lt in E50 | apply Nat.ltb_ge in E50].
  - rewrite length_app, length_take.
    change (length (str "...")) with 3%nat. lia.
  - destruct (length joined <? 10)%nat eqn:E10;
      [apply Nat.ltb_lt in E10 | apply Nat.ltb_ge in E10]; [|lia].
    unfold strftime_md, pad2. rewrite !length_app.
    change (length (str "Travel Chat - ")) with 14%nat.
    change (length (str "/")) with 1%nat. simpl. lia.
Qed.

(** X25. The title that [auto_generate_title] returns always has
    between 10 and 50 characters, whatever the message and the state of
    the store. *)
Theorem auto_generate_title_length
    (session_id first_message : pystr) (now : datetime) (w : world) :
  exists title w',
    auto_generate_title session_id first_message now w = (Ok title, w')
    /\ (10 <= length title <= 50)%nat.
Proof.
  unfold auto_generate_title, bind.
  destruct (update_session_title_returns session_id
              (generated_title first_message now) w) as (b & w' & ->).
  eexists _, _. split; [reflexivity | apply generated_title_length].
Qed.






#[global] Instance recent_first_total : Total recent_first.
Proof. intros s1 s2. unfold recent_first. lia. Qed.

#[global] Instance recent_first_trans : Transitive recent_first.
Proof. intros s1 s2 s3. unfold recent_first. lia. Qed.

(** X28. [get_user_sessions] returns at most [limit] sessions, all of
    them sessions of the user that the store holds, most recently
    updated first. *)
Theorem get_user_sessions_bounded (user_id : pystr) (limit : Z) (w : world) :
  healthy w -> 0 <= limit ->
  exists rows,
    fst (get_user_sessions user_id limit w) = Ok (summary_of <$> rows)
    /\ (length rows <= Z.to_nat limit)%nat
    /\ StronglySorted recent_first rows
    /\ (forall s, s ∈ rows ->
          conversation_sessions (store w) !! s.1 = Some s.2
          /\ s_user_id s.2 = user_id).
Proof.
  intros H Hlimit.
  set (mine := filter (fun s : pystr * session_row => s_user_id s.2 = user_id)
                 (map_to_list (conversation_sessions (store w)))).
  set (sorted := merge_sort recent_first mine).
  exists (take (Z.to_nat limit) sorted).
  assert (Hsorted : StronglySorted recent_first sorted)
    by apply (StronglySorted_merge_sort _).
  assert (Hperm : sorted ≡ₚ mine) by apply merge_sort_Permutation.
  split; [|split; [|split]].
  - unfold get_user_sessions, get_user_sessions_body, execute_checked_query.
    unfold_ops. run_healthy. unfold select_sessions.
    replace (limit <? 0) with false by (symmetry; apply Z.ltb_ge; lia).
    run_healthy. reflexivity.
  - rewrite length_take. lia.
  - rewrite <- (take_drop (Z.to_nat limit) sorted) in Hsorted.
    eapply StronglySorted_app_1_l. exact Hsorted.
  - intros s Hs. assert (Hin : s ∈ mine).
    { rewrite <- Hperm, <- (take_drop (Z.to_nat limit) sorted).
      apply elem_of_app. left. exact Hs. }
    apply list_elem_of_filter in Hin as [Huser Hin]. split; [|exact Huser].
    apply elem_of_map_to_list. destruct s. exact Hin.
Qed.

Lemma get_user_sessions_bounded_witness :
  let w1 := snd (create_new_session Samples.sample_user (Some (str "Kyoto")) 7
                   Samples.sample_now Samples.sample_world) in
  exists rows,
    fst (get_user_sessions Samples.sample_user 20 w1) = Ok (summary_of <$> rows)
    /\ (length rows <= 20)%nat.
Proof.
  intros w1.
  destruct (get_user_sessions_bounded Samples.sample_user 20 w1)
    as (rows & E & L & _); [constructor | lia |].
  exists rows. split; [exact E | exact L].
Defined.

(** X29. A negative limit makes the query fail, and the failure is
    swallowed: [get_user_sessions] returns the empty list, as for a user
    without sessions. *)
Theorem get_user_sessions_negative_limit (user_id : pystr) (limit : Z) (w : world) :
  limit < 0 ->
  fst (get_user_sessions user_id limit w) = Ok []
  /\ store (snd (get_user_sessions user_id limit w)) = store w.
Proof.
  intros Hneg. unfold get_user_sessions, get_user_sessions_body, execute_checked_query.
  unfold_ops. unfold select_sessions.
  replace (limit <? 0) with true by (symmetry; apply Z.ltb_lt; exact Hneg).
  run_cases; autorewrite with world; split; reflexivity.
Qed.

Lemma get_user_sessions_negative_limit_witness :
  fst (get_user_sessions Samples.sample_user (-1) Samples.sample_world) = Ok [].
Proof.
  apply (get_user_sessions_negative_limit Samples.sample_user (-1) Samples.sample_world).
  lia.
Defined.

End MoreSessions.
